(** * fetch_youtube_analytics.py: a shallow embedding and its properties

    The script authenticates, issues a fixed series of read-only queries
    against the YouTube Analytics and Data APIs, derives a few summary
    figures from the returned tables and dumps one JSON report.

    Modelling choices.
    - Python values are the inductive type [json] (None, bool, int, float,
      str, list, dict); ints are [Z], floats are IEEE binary64 ([PrimFloat]),
      strings are sequences of 8-bit characters, dicts are association
      lists in insertion order.
    - An exception is a value of [exn]; a computation that may raise has
      type [result A].  A [try: ... except Exception:] block is a [match]
      on the result of its body.
    - The remote services, the clock, the token store and the [datetime]
      formatting routines are the fields of a [world]; every function of
      the script takes the world as an argument.  A service answers a
      request the same way throughout a run.
    - Reading and writing the local files and building the two API clients
      do not fail; what the script prints is left out, except where
      computing the printed text can raise.
    - [sum] adds its items from left to right.  (CPython 3.12 and later
      compensate the rounding errors of a sum of floats; on ints, which is
      what the summed API columns hold, there is no difference.)
    - Strings are ASCII text: [upper] and the whitespace and digit tests
      know the ASCII letters, blanks and digits only. *)

From Stdlib Require Import ZArith List String Ascii Bool Lia.
From Stdlib Require Import Sorting.Sorted Sorting.Permutation.
From Stdlib Require Import Floats.
Import ListNotations.

Local Open Scope string_scope.
Local Open Scope Z_scope.

(** A decimal float literal denotes the nearest double, as in Python. *)
Set Warnings "-inexact-float".

(** ** Exceptions and results *)

(** The exception classes the modelled code can meet.  Each of them is a
    subclass of [Exception], so [except Exception] and a bare [except]
    catch them all.  [HttpError] stands for any failure raised by an API
    call's [execute()]. *)
Inductive exn : Type :=
| HttpError
| KeyError
| IndexError
| TypeError
| ValueError
| AttributeError
| ZeroDivisionError
| OverflowError.

Inductive result (A : Type) : Type :=
| Ok (a : A)
| Raise (e : exn).
Arguments Ok {A} a.
Arguments Raise {A} e.

Definition bind {A B : Type} (m : result A) (k : A -> result B) : result B :=
  match m with
  | Ok a => k a
  | Raise e => Raise e
  end.

Notation "x <- m ;; k" := (bind m (fun x => k))
  (at level 61, m at next level, right associativity).

(** [try: body except Exception: handler] *)
Definition try_except {A : Type} (body : result A) (handler : exn -> A) : A :=
  match body with
  | Ok a => a
  | Raise e => handler e
  end.

(** A generator expression or list comprehension whose element expression
    may raise: evaluated left to right, the first exception wins. *)
Fixpoint mapM {A B : Type} (f : A -> result B) (l : list A) : result (list B) :=
  match l with
  | [] => Ok []
  | x :: xs => y <- f x ;; ys <- mapM f xs ;; Ok (y :: ys)
  end.

Fixpoint foldM {A B : Type} (f : A -> B -> result A) (l : list B) (a : A)
  : result A :=
  match l with
  | [] => Ok a
  | x :: xs => a' <- f a x ;; foldM f xs a'
  end.

(** ** Python values *)

Local Unset Elimination Schemes.
Inductive json : Type :=
| JNone
| JBool (b : bool)
| JInt (z : Z)
| JFloat (f : float)
| JStr (s : string)
| JList (l : list json)
| JDict (d : list (string * json)).
Local Set Elimination Schemes.

(** *** Floats *)

Module Py_float.

(** The double nearest to the integer [m * 2^e] (round half to even). *)
Definition of_scaled (m e : Z) : float :=
  SF2Prim (binary_normalize prec emax m e false).

(** [float(z)] for an int [z]: correctly rounded, [OverflowError] when the
    int is too large for a double. *)
Definition of_int (z : Z) : result float :=
  let f := of_scaled z 0 in
  if is_infinity f then Raise OverflowError else Ok f.

(** A finite float as sign and [mantissa * 2^exponent]. *)
Definition decompose (f : float) : option (Z * Z) :=
  match Prim2SF f with
  | S754_zero _ => Some (0, 0)
  | S754_finite s m e => Some (if s then Z.neg m else Z.pos m, e)
  | S754_infinity _ | S754_nan => None
  end.

(** [n / d] rounded to the nearest integer, ties to the even one
    ([d > 0]). *)
Definition div_half_even (n d : Z) : Z :=
  let q := n / d in
  let r := n mod d in
  match (2 * r ?= d) with
  | Lt => q
  | Gt => q + 1
  | Eq => if Z.even q then q else q + 1
  end.

(** [n / d] on two ints, the quotient rounded once to the nearest double:
    the quotient is computed with more than 64 significant bits and a
    sticky last bit, then rounded. *)
Definition int_true_div (n d : Z) : result float :=
  if d =? 0 then Raise ZeroDivisionError
  else
    let s := negb (Bool.eqb (n <? 0) (d <? 0)) in
    let a := Z.abs n in
    let b := Z.abs d in
    let k := Z.max 0 (64 + Z.log2 b - Z.log2 a) in
    let q := (a * 2 ^ k) / b in
    let r := (a * 2 ^ k) mod b in
    let q' := if r =? 0 then q else Z.lor q 1 in
    let f := of_scaled q' (- k) in
    if is_infinity f then Raise OverflowError
    else Ok (if s then (- f)%float else f).

(** [round(x)]: the nearest int, ties to even. *)
Definition round_to_int (f : float) : result Z :=
  if is_nan f then Raise ValueError
  else match decompose f with
       | None => Raise OverflowError
       | Some (m, e) =>
           Ok (if 0 <=? e then m * 2 ^ e else div_half_even m (2 ^ (- e)))
       end.

(** [int(x)]: truncation toward zero. *)
Definition trunc (f : float) : result Z :=
  if is_nan f then Raise ValueError
  else match decompose f with
       | None => Raise OverflowError
       | Some (m, e) =>
           Ok (if 0 <=? e then m * 2 ^ e else Z.quot m (2 ^ (- e)))
       end.

(** [round(x, 1)]: the exact value of [x] is rounded to one decimal place
    (ties to even) and that decimal is converted back to the nearest
    double; NaN and infinities round to themselves. *)
Definition round1 (f : float) : float :=
  match decompose f with
  | None => f
  | Some (m, e) =>
      let tenths :=
        if 0 <=? e then 10 * m * 2 ^ e
        else div_half_even (10 * m) (2 ^ (- e)) in
      if tenths =? 0 then (if get_sign f then neg_zero else zero)
      else match int_true_div tenths 10 with
           | Ok r => r
           | Raise _ => f
           end
  end.

End Py_float.

(** *** Strings *)

Module Py_str.

Definition upper_char (c : ascii) : ascii :=
  let n := nat_of_ascii c in
  if (97 <=? n)%nat && (n <=? 122)%nat then ascii_of_nat (n - 32) else c.

(** [s.upper()] *)
Fixpoint upper (s : string) : string :=
  match s with
  | EmptyString => EmptyString
  | String c s' => String (upper_char c) (upper s')
  end.

(** [needle in hay] *)
Fixpoint contains (needle hay : string) : bool :=
  String.prefix needle hay ||
  match hay with
  | EmptyString => false
  | String _ hay' => contains needle hay'
  end.

(** [s[:n]] for [n >= 0] *)
Definition take (n : nat) (s : string) : string := String.substring 0 n s.

(** The characters of [s], each a string of length one. *)
Fixpoint chars (s : string) : list string :=
  match s with
  | EmptyString => []
  | String c s' => String c EmptyString :: chars s'
  end.

Definition is_space (c : ascii) : bool :=
  let n := nat_of_ascii c in
  ((9 <=? n)%nat && (n <=? 13)%nat) || ((28 <=? n)%nat && (n <=? 32)%nat).

Fixpoint lstrip (s : string) : string :=
  match s with
  | String c s' => if is_space c then lstrip s' else s
  | EmptyString => EmptyString
  end.

Fixpoint rstrip (s : string) : string :=
  match s with
  | String c s' =>
      match rstrip s' with
      | EmptyString => if is_space c then EmptyString else String c EmptyString
      | r => String c r
      end
  | EmptyString => EmptyString
  end.

Definition digit (c : ascii) : option Z :=
  let n := nat_of_ascii c in
  if (48 <=? n)%nat && (n <=? 57)%nat then Some (Z.of_nat (n - 48)) else None.

(** Decimal digits with single underscores between them; [acc] is the
    value read so far and [after_digit] tells whether the previous
    character was a digit. *)
Fixpoint digits (s : string) (acc : Z) (after_digit : bool) : option Z :=
  match s with
  | EmptyString => if after_digit then Some acc else None
  | String c s' =>
      match digit c with
      | Some d => digits s' (10 * acc + d) true
      | None =>
          if Ascii.eqb c "_"%char && after_digit then digits s' acc false
          else None
      end
  end.

(** [int(s)] in base ten: surrounding whitespace, an optional sign,
    then digits. *)
Definition to_int (s : string) : result Z :=
  let body := rstrip (lstrip s) in
  let parsed :=
    match body with
    | String "-" s' => option_map Z.opp (digits s' 0 false)
    | String "+" s' => digits s' 0 false
    | _ => digits body 0 false
    end in
  match parsed with
  | Some z => Ok z
  | None => Raise ValueError
  end.

End Py_str.

(** *** Operations on values *)

Inductive num : Type :=
| NInt (z : Z)
| NFloat (f : float).

(** The numeric reading of a value; [bool] is a subclass of [int]. *)
Definition as_num (v : json) : option num :=
  match v with
  | JBool b => Some (NInt (if b then 1 else 0))
  | JInt z => Some (NInt z)
  | JFloat f => Some (NFloat f)
  | _ => None
  end.

Definition to_float (n : num) : result float :=
  match n with
  | NInt z => Py_float.of_int z
  | NFloat f => Ok f
  end.

(** [bool(v)] *)
Definition py_truthy (v : json) : bool :=
  match v with
  | JNone => false
  | JBool b => b
  | JInt z => negb (z =? 0)
  | JFloat f => negb (is_zero f)
  | JStr s => negb (String.eqb s "")
  | JList l => match l with [] => false | _ => true end
  | JDict d => match d with [] => false | _ => true end
  end.

(** [len(v)] *)
Definition py_len (v : json) : result Z :=
  match v with
  | JStr s => Ok (Z.of_nat (String.length s))
  | JList l => Ok (Z.of_nat (List.length l))
  | JDict d => Ok (Z.of_nat (List.length d))
  | _ => Raise TypeError
  end.

(** The position in a sequence of length [n] that index [i] denotes
    (negative indices count from the end). *)
Definition norm_index (n : nat) (i : Z) : option nat :=
  let j := if i <? 0 then i + Z.of_nat n else i in
  if (0 <=? j) && (j <? Z.of_nat n) then Some (Z.to_nat j) else None.

Fixpoint dict_lookup {A : Type} (k : string) (d : list (string * A)) : option A :=
  match d with
  | [] => None
  | (k', v) :: d' => if String.eqb k k' then Some v else dict_lookup k d'
  end.

(** [v[i]] with an int index *)
Definition py_index (v : json) (i : Z) : result json :=
  match v with
  | JList l =>
      match norm_index (List.length l) i with
      | Some j => match nth_error l j with
                  | Some x => Ok x
                  | None => Raise IndexError
                  end
      | None => Raise IndexError
      end
  | JStr s =>
      match norm_index (String.length s) i with
      | Some j => match String.get j s with
                  | Some c => Ok (JStr (String c EmptyString))
                  | None => Raise IndexError
                  end
      | None => Raise IndexError
      end
  | JDict _ => Raise KeyError
  | _ => Raise TypeError
  end.

(** [v[k]] with a str key *)
Definition py_item (v : json) (k : string) : result json :=
  match v with
  | JDict d => match dict_lookup k d with
               | Some x => Ok x
               | None => Raise KeyError
               end
  | _ => Raise TypeError
  end.

(** [v.get(k)]: [None] stands for Python's [None] result *)
Definition py_get (v : json) (k : string) : result (option json) :=
  match v with
  | JDict d => Ok (dict_lookup k d)
  | _ => Raise AttributeError
  end.

(** [v.get(k, default)] *)
Definition py_get_default (v : json) (k : string) (default : json) : result json :=
  o <- py_get v k ;;
  Ok (match o with Some x => x | None => default end).

(** The items a [for] loop over [v] visits. *)
Definition py_iter (v : json) : result (list json) :=
  match v with
  | JList l => Ok l
  | JStr s => Ok (map JStr (Py_str.chars s))
  | JDict d => Ok (map (fun kv => JStr (fst kv)) d)
  | _ => Raise TypeError
  end.

(** [a + b] *)
Definition py_add (a b : json) : result json :=
  match as_num a, as_num b with
  | Some (NInt x), Some (NInt y) => Ok (JInt (x + y))
  | Some x, Some y =>
      fx <- to_float x ;; fy <- to_float y ;; Ok (JFloat (fx + fy)%float)
  | _, _ =>
      match a, b with
      | JStr s, JStr t => Ok (JStr (s ++ t))
      | JList l, JList m => Ok (JList (l ++ m))
      | _, _ => Raise TypeError
      end
  end.

(** [a - b] *)
Definition py_sub (a b : json) : result json :=
  match as_num a, as_num b with
  | Some (NInt x), Some (NInt y) => Ok (JInt (x - y))
  | Some x, Some y =>
      fx <- to_float x ;; fy <- to_float y ;; Ok (JFloat (fx - fy)%float)
  | _, _ => Raise TypeError
  end.

(** [a / b]: true division, a float whenever it succeeds *)
Definition py_truediv (a b : json) : result float :=
  match as_num a, as_num b with
  | Some (NInt x), Some (NInt y) => Py_float.int_true_div x y
  | Some x, Some y =>
      fx <- to_float x ;; fy <- to_float y ;;
      if is_zero fy then Raise ZeroDivisionError else Ok (fx / fy)%float
  | _, _ => Raise TypeError
  end.

(** [f * z] for a float [f] and an int literal [z] *)
Definition float_mul_int (f : float) (z : Z) : result float :=
  fz <- Py_float.of_int z ;; Ok (f * fz)%float.

(** [v > 0] *)
Definition py_positive (v : json) : result bool :=
  match as_num v with
  | Some (NInt z) => Ok (0 <? z)
  | Some (NFloat f) => Ok (zero <? f)%float
  | None => Raise TypeError
  end.

(** [sum(items)]: the items are added left to right onto the int 0. *)
Definition py_sum (items : list json) : result json :=
  foldM py_add items (JInt 0).

(** [round(v)] *)
Definition py_round (v : json) : result Z :=
  match as_num v with
  | Some (NInt z) => Ok z
  | Some (NFloat f) => Py_float.round_to_int f
  | None => Raise TypeError
  end.

(** [round(v, 1)] *)
Definition py_round1 (v : json) : result json :=
  match as_num v with
  | Some (NInt z) => Ok (JInt z)
  | Some (NFloat f) => Ok (JFloat (Py_float.round1 f))
  | None => Raise TypeError
  end.

(** [int(v)] *)
Definition py_int (v : json) : result Z :=
  match v with
  | JStr s => Py_str.to_int s
  | _ => match as_num v with
         | Some (NInt z) => Ok z
         | Some (NFloat f) => Py_float.trunc f
         | None => Raise TypeError
         end
  end.

(** [v.upper()] *)
Definition py_upper (v : json) : result string :=
  match v with
  | JStr s => Ok (Py_str.upper s)
  | _ => Raise AttributeError
  end.

(** [v[:n]] *)
Definition py_take (v : json) (n : nat) : result json :=
  match v with
  | JStr s => Ok (JStr (Py_str.take n s))
  | JList l => Ok (JList (firstn n l))
  | JDict _ => Raise KeyError
  | _ => Raise TypeError
  end.

(** [l[::step]] on a list, [step >= 1]: the items at positions
    0, step, 2 step, ... *)
Fixpoint every_nth {A : Type} (skip step : nat) (l : list A) : list A :=
  match l with
  | [] => []
  | x :: xs =>
      match skip with
      | O => x :: every_nth (step - 1) step xs
      | S k => every_nth k step xs
      end
  end.

(** [v[::step]] *)
Definition py_stride (v : json) (step : Z) : result json :=
  if step =? 0 then Raise ValueError
  else match v with
       | JList l => Ok (JList (every_nth 0 (Z.to_nat step) l))
       | JStr s =>
           Ok (JStr (String.concat "" (every_nth 0 (Z.to_nat step) (Py_str.chars s))))
       | JDict _ => Raise KeyError
       | _ => Raise TypeError
       end.

(** ** Dates *)

Record datetime : Type := {
  year : Z; month : Z; day : Z;
  hour : Z; minute : Z; second : Z
}.

(** A reference implementation of the [datetime] routines the script calls,
    for ASCII input in the C locale.  The properties below are stated for
    every implementation (see [world]); this one serves the worked
    examples. *)
Module C_datetime.

Inductive field : Type := FYear | FMonth | FDay | FHour | FMinute | FSecond | FMonthName.

Inductive directive : Type :=
| Lit (c : ascii)
| Dir (f : field).

(** A format string as a list of directives. *)
Fixpoint directives (fmt : string) : list directive :=
  match fmt with
  | String "%" (String c rest) =>
      match c with
      | "Y"%char => Dir FYear :: directives rest
      | "m"%char => Dir FMonth :: directives rest
      | "d"%char => Dir FDay :: directives rest
      | "H"%char => Dir FHour :: directives rest
      | "M"%char => Dir FMinute :: directives rest
      | "S"%char => Dir FSecond :: directives rest
      | "b"%char => Dir FMonthName :: directives rest
      | _ => Lit c :: directives rest
      end
  | String c rest => Lit c :: directives rest
  | EmptyString => []
  end.

Definition month_abbr (m : Z) : string :=
  nth (Z.to_nat (m - 1))
      ["Jan"; "Feb"; "Mar"; "Apr"; "May"; "Jun";
       "Jul"; "Aug"; "Sep"; "Oct"; "Nov"; "Dec"] "".

Definition digit_char (d : Z) : ascii := ascii_of_nat (48 + Z.to_nat d).

(** [z] in decimal, zero-padded to [width] digits. *)
Fixpoint padded (width : nat) (z : Z) : string :=
  match width with
  | O => ""
  | S w => padded w (z / 10) ++ String (digit_char (z mod 10)) ""
  end.

Definition show_field (f : field) (d : datetime) : string :=
  match f with
  | FYear => padded 4 (year d)
  | FMonth => padded 2 (month d)
  | FDay => padded 2 (day d)
  | FHour => padded 2 (hour d)
  | FMinute => padded 2 (minute d)
  | FSecond => padded 2 (second d)
  | FMonthName => month_abbr (month d)
  end.

(** [d.strftime(fmt)] *)
Definition strftime (d : datetime) (fmt : string) : string :=
  String.concat ""
    (map (fun x => match x with
                   | Lit c => String c ""
                   | Dir f => show_field f d
                   end) (directives fmt)).

(** The first [n] characters of [s] read as a decimal number, with the
    rest of [s]. *)
Fixpoint read_digits (n : nat) (s : string) (acc : Z) : option (Z * string) :=
  match n with
  | O => Some (acc, s)
  | S k =>
      match s with
      | String c s' =>
          match Py_str.digit c with
          | Some d => read_digits k s' (10 * acc + d)
          | None => None
          end
      | EmptyString => None
      end
  end.

(** The widths a numeric field may take, tried in this order, and the
    values it admits. *)
Definition widths (f : field) : list nat :=
  match f with
  | FYear => [4%nat]
  | _ => [2%nat; 1%nat]
  end.

Definition admits (f : field) (v : Z) : bool :=
  match f with
  | FYear => true
  | FMonth => (1 <=? v) && (v <=? 12)
  | FDay => (1 <=? v) && (v <=? 31)
  | FHour => v <=? 23
  | FMinute | FSecond => v <=? 59
  | FMonthName => false
  end.

Definition set_field (f : field) (v : Z) (d : datetime) : datetime :=
  match f with
  | FYear => {| year := v; month := month d; day := day d;
                hour := hour d; minute := minute d; second := second d |}
  | FMonth | FMonthName =>
             {| year := year d; month := v; day := day d;
                hour := hour d; minute := minute d; second := second d |}
  | FDay => {| year := year d; month := month d; day := v;
               hour := hour d; minute := minute d; second := second d |}
  | FHour => {| year := year d; month := month d; day := day d;
                hour := v; minute := minute d; second := second d |}
  | FMinute => {| year := year d; month := month d; day := day d;
                  hour := hour d; minute := v; second := second d |}
  | FSecond => {| year := year d; month := month d; day := day d;
                  hour := hour d; minute := minute d; second := v |}
  end.

Definition first_some {A B : Type} (f : A -> option B) (l : list A) : option B :=
  fold_right (fun x rest => match f x with Some y => Some y | None => rest end)
             None l.

(** Matching the input against the directives, letters compared without
    regard to case; a numeric field prefers its longer form. *)
Fixpoint parse (ds : list directive) (s : string) (d : datetime) : option datetime :=
  match ds with
  | [] => match s with EmptyString => Some d | _ => None end
  | Lit c :: ds' =>
      match s with
      | String c' s' =>
          if Ascii.eqb (Py_str.upper_char c) (Py_str.upper_char c')
          then parse ds' s' d else None
      | EmptyString => None
      end
  | Dir f :: ds' =>
      first_some
        (fun width =>
           match read_digits width s 0 with
           | Some (v, s') =>
               if admits f v then parse ds' s' (set_field f v d) else None
           | None => None
           end)
        (widths f)
  end.

Definition is_leap (y : Z) : bool :=
  ((y mod 4 =? 0) && negb (y mod 100 =? 0)) || (y mod 400 =? 0).

Definition days_in_month (y m : Z) : Z :=
  if m =? 2 then (if is_leap y then 29 else 28)
  else if (m =? 4) || (m =? 6) || (m =? 9) || (m =? 11) then 30 else 31.

(** [datetime.strptime(s, fmt)] *)
Definition strptime (s fmt : string) : result datetime :=
  let start := {| year := 1900; month := 1; day := 1;
                  hour := 0; minute := 0; second := 0 |} in
  match parse (directives fmt) s start with
  | Some d =>
      if (1 <=? year d) && (day d <=? days_in_month (year d) (month d))
      then Ok d else Raise ValueError
  | None => Raise ValueError
  end.

(** Days since 1970-01-01 of a civil date, and back. *)
Definition days_from_civil (y m d : Z) : Z :=
  let y' := if m <=? 2 then y - 1 else y in
  let era := y' / 400 in
  let yoe := y' - era * 400 in
  let doy := (153 * (if 2 <? m then m - 3 else m + 9) + 2) / 5 + d - 1 in
  let doe := yoe * 365 + yoe / 4 - yoe / 100 + doy in
  era * 146097 + doe - 719468.

Definition civil_from_days (z : Z) : Z * Z * Z :=
  let z' := z + 719468 in
  let era := z' / 146097 in
  let doe := z' - era * 146097 in
  let yoe := (doe - doe / 1460 + doe / 36524 - doe / 146096) / 365 in
  let doy := doe - (365 * yoe + yoe / 4 - yoe / 100) in
  let mp := (5 * doy + 2) / 153 in
  let d := doy - (153 * mp + 2) / 5 + 1 in
  let m := if mp <? 10 then mp + 3 else mp - 9 in
  (if m <=? 2 then yoe + era * 400 + 1 else yoe + era * 400, m, d).

(** [d.date() - timedelta(days=n)] *)
Definition minus_days (d : datetime) (n : Z) : datetime :=
  let '(y, m, dd) := civil_from_days (days_from_civil (year d) (month d) (day d) - n) in
  {| year := y; month := m; day := dd; hour := 0; minute := 0; second := 0 |}.

End C_datetime.

(** ** The world the script runs in *)

(** The attributes of a pickled credential object that [authenticate]
    reads; [refresh_token] records whether the attribute is truthy. *)
Record credentials : Type := {
  valid : bool;
  expired : bool;
  refresh_token : bool
}.

(** The keyword arguments of [reports().query(...)]. *)
Record report_query : Type := {
  rq_ids : string;
  rq_startDate : string;
  rq_endDate : string;
  rq_metrics : string;
  rq_dimensions : string;
  rq_sort : string;
  rq_maxResults : option Z
}.

(** The keyword arguments of [search().list(...)]. *)
Record search_query : Type := {
  sq_part : string;
  sq_channelId : string;
  sq_type : string;
  sq_publishedAfter : string;
  sq_maxResults : Z;
  sq_order : string
}.

Record world : Type := {
  (** [TOKEN_FILE]: [None] when the file does not exist, otherwise what
      [pickle.load] yields ([None] for Python's [None]). *)
  token_file : option (option credentials);
  (** [os.path.exists(CREDENTIALS_FILE)] *)
  credentials_file_exists : bool;
  (** [creds.refresh(Request())] *)
  refresh : result unit;
  (** the installed-app flow, [flow.run_local_server(port=0)] *)
  run_local_server : result unit;
  (** [datetime.now()] *)
  now : datetime;
  (** the [datetime] library *)
  strptime : string -> string -> result datetime;
  strftime : datetime -> string -> string;
  minus_days : datetime -> Z -> datetime;
  (** [youtube_analytics.reports().query(...).execute()] *)
  reports_query : report_query -> result json;
  (** [youtube_data.videos().list(part=..., id=...).execute()] *)
  videos_list : string -> json -> result json;
  (** [youtube_data.search().list(...).execute()] *)
  search_list : search_query -> result json
}.

(** [datetime.strptime(v, fmt)] on an arbitrary value *)
Definition py_strptime (w : world) (v : json) (fmt : string) : result datetime :=
  match v with
  | JStr s => strptime w s fmt
  | _ => Raise TypeError
  end.

(** ** The script *)

Definition CHANNEL_ID : string := "UCK3ct4iOm2HqnOiv8sgMHxA".

Inductive auth_result : Type :=
| Authenticated
| SystemExit (code : Z)
| AuthError (e : exn).

Definition lift_auth (r : result unit) : auth_result :=
  match r with
  | Ok _ => Authenticated
  | Raise e => AuthError e
  end.

Definition authenticate (w : world) : auth_result :=
  let creds := match token_file w with
               | Some loaded => loaded
               | None => None
               end in
  let login :=
    if negb (credentials_file_exists w) then SystemExit 1
    else lift_auth (run_local_server w) in
  match creds with
  | Some c =>
      if valid c then Authenticated
      else if expired c && refresh_token c then lift_auth (refresh w)
      else login
  | None => login
  end.

Definition get_date_range (w : world) (days : Z) : string * string :=
  let end_date := now w in
  let start_date := minus_days w end_date days in
  (strftime w start_date "%Y-%m-%d", strftime w end_date "%Y-%m-%d").

Definition channel_query (start_date end_date metrics dimensions sort : string)
           (maxResults : option Z) : report_query :=
  {| rq_ids := "channel==" ++ CHANNEL_ID;
     rq_startDate := start_date;
     rq_endDate := end_date;
     rq_metrics := metrics;
     rq_dimensions := dimensions;
     rq_sort := sort;
     rq_maxResults := maxResults |}.

Definition metrics_query (start_date end_date : string) : report_query :=
  channel_query start_date end_date
    "views,estimatedMinutesWatched,averageViewDuration,subscribersGained,subscribersLost"
    "day" "day" None.

Definition fetch_channel_metrics (w : world) (start_date end_date : string)
  : result json :=
  reports_query w (metrics_query start_date end_date).

(** [row[i] if len(row) > i else 0] *)
Definition cell_or_zero (row : json) (i : Z) : result json :=
  n <- py_len row ;;
  if i <? n then py_index row i else Ok (JInt 0).

(** [sum(f(row) for row in rows)]: each item is computed when the sum
    reaches it. *)
Definition sum_over (f : json -> result json) (rows : list json) : result json :=
  foldM (fun acc row => x <- f row ;; py_add acc x) rows (JInt 0).

Definition ctr_query (start_date end_date : string) : report_query :=
  channel_query start_date end_date
    "views,cardImpressions,cardClicks,cardClickRate" "day" "day" None.

(** [ctr_values] of [fetch_click_through_rate] *)
Definition ctr_values (rows : list json) : result (list json) :=
  mapM (fun row => cell_or_zero row 3) rows.

(** [sum(ctr_values) / len(ctr_values) if ctr_values else 0] *)
Definition mean_or_zero (values : list json) : result json :=
  match values with
  | [] => Ok (JInt 0)
  | _ =>
      total <- py_sum values ;;
      avg <- py_truediv total (JInt (Z.of_nat (List.length values))) ;;
      Ok (JFloat avg)
  end.

Definition DEFAULT_CTR : json := JFloat 4.8%float.

(** The [try] block of [fetch_click_through_rate]: [Some v] when it
    reaches [return avg_ctr], [None] when it falls through. *)
Definition click_through_rate_body (w : world) (start_date end_date : string)
  : result (option json) :=
  response <- reports_query w (ctr_query start_date end_date) ;;
  rows <- py_get_default response "rows" (JList []) ;;
  if py_truthy rows then
    items <- py_iter rows ;;
    values <- ctr_values items ;;
    avg_ctr <- mean_or_zero values ;;
    Ok (Some avg_ctr)
  else Ok None.

Definition fetch_click_through_rate (w : world) (start_date end_date : string)
  : json :=
  match click_through_rate_body w start_date end_date with
  | Ok (Some avg_ctr) => avg_ctr
  | Ok None => DEFAULT_CTR
  | Raise _ => DEFAULT_CTR
  end.

(** *** Traffic sources *)

(** [d[k] = v] on a dict in insertion order *)
Fixpoint dict_set {A : Type} (k : string) (v : A) (d : list (string * A))
  : list (string * A) :=
  match d with
  | [] => [(k, v)]
  | (k', v') :: d' =>
      if String.eqb k k' then (k, v) :: d' else (k', v') :: dict_set k v d'
  end.

Definition dict_values {A : Type} (d : list (string * A)) : list A := map snd d.

Definition traffic_query (start_date end_date : string) : report_query :=
  channel_query start_date end_date "views" "insightTrafficSourceType" "-views" None.

Definition INITIAL_SOURCES : list (string * json) :=
  [("search", JInt 0); ("browse", JInt 0); ("external", JInt 0); ("other", JInt 0)].

Definition DEFAULT_SOURCES : list (string * Z) :=
  [("search", 42); ("browse", 31); ("external", 18); ("other", 9)].

(** The bucket a traffic source type falls into.  Every test of the
    [if]/[elif] chain upper-cases the same value, so the chain raises
    exactly when the first [upper()] does. *)
Definition bucket_of (source_type : json) : result string :=
  u <- py_upper source_type ;;
  Ok (if Py_str.contains "SEARCH" u || Py_str.contains "YT_SEARCH" u then "search"
      else if Py_str.contains "BROWSE" u || Py_str.contains "SUGGESTED" u
              || Py_str.contains "RELATED" u then "browse"
      else if Py_str.contains "EXTERNAL" u || Py_str.contains "EXT" u then "external"
      else "other").

(** [(views / total_views * 100) if total_views > 0 else 0] *)
Definition percentage_of (views total_views : json) : result json :=
  positive <- py_positive total_views ;;
  if positive then
    q <- py_truediv views total_views ;;
    p <- float_mul_int q 100 ;;
    Ok (JFloat p)
  else Ok (JInt 0).

(** [sources[k] += v] *)
Definition dict_add (k : string) (v : json) (sources : list (string * json))
  : result (list (string * json)) :=
  match dict_lookup k sources with
  | Some old => new <- py_add old v ;; Ok (dict_set k new sources)
  | None => Raise KeyError
  end.

(** One turn of the loop that maps the rows to the four categories. *)
Definition add_row (total_views : json) (sources : list (string * json))
           (row : json) : result (list (string * json)) :=
  source_type <- py_index row 0 ;;
  views <- py_index row 1 ;;
  percentage <- percentage_of views total_views ;;
  k <- bucket_of source_type ;;
  dict_add k percentage sources.

(** [{k: round(v) for k, v in sources.items()}] *)
Definition round_sources (sources : list (string * json)) : result (list (string * Z)) :=
  mapM (fun kv => r <- py_round (snd kv) ;; Ok (fst kv, r)) sources.

(** [max(sources, key=sources.get)]: the first key, in insertion order,
    whose value no other exceeds. *)
Definition max_key (sources : list (string * Z)) : result string :=
  match sources with
  | [] => Raise ValueError
  | kv :: rest =>
      Ok (fst (fold_left (fun best kv' => if snd best <? snd kv' then kv' else best)
                         rest kv))
  end.

Definition total_of (sources : list (string * Z)) : Z :=
  fold_left Z.add (dict_values sources) 0.

(** The adjustment that makes the rounded shares add up to 100. *)
Definition adjust_to_100 (sources : list (string * Z)) : result (list (string * Z)) :=
  let total := total_of sources in
  if negb (total =? 100) then
    k <- max_key sources ;;
    match dict_lookup k sources with
    | Some v => Ok (dict_set k (v + (100 - total)) sources)
    | None => Raise KeyError
    end
  else Ok sources.

(** The [try] block of [fetch_traffic_sources]. *)
Definition traffic_sources_body (w : world) (start_date end_date : string)
  : result (list (string * Z)) :=
  response <- reports_query w (traffic_query start_date end_date) ;;
  rows <- py_get_default response "rows" (JList []) ;;
  items <- py_iter rows ;;
  total_views <- sum_over (fun row => py_index row 1) items ;;
  sources <- foldM (add_row total_views) items INITIAL_SOURCES ;;
  rounded <- round_sources sources ;;
  adjust_to_100 rounded.

Definition fetch_traffic_sources (w : world) (start_date end_date : string)
  : list (string * Z) :=
  try_except (traffic_sources_body w start_date end_date)
             (fun _ => DEFAULT_SOURCES).

(** *** Top video *)

Record video_summary : Type := {
  vs_title : json;
  vs_views : json;
  vs_watch_hours : json;
  vs_likes : json
}.

Definition NO_VIDEOS : video_summary :=
  {| vs_title := JStr "No videos in this period";
     vs_views := JInt 0;
     vs_watch_hours := JInt 0;
     vs_likes := JInt 0 |}.

Definition top_video_query (start_date end_date : string) : report_query :=
  channel_query start_date end_date "views,estimatedMinutesWatched,likes"
                "video" "-views" (Some 1).

(** The [try] block that asks the Data API for the title. *)
Definition title_lookup (w : world) (video_id : json) : result json :=
  video_response <- videos_list w "snippet" video_id ;;
  found <- py_get video_response "items" ;;
  if match found with Some v => py_truthy v | None => false end then
    items <- py_item video_response "items" ;;
    first <- py_index items 0 ;;
    snippet <- py_item first "snippet" ;;
    py_item snippet "title"
  else Ok (JStr "Unknown Title").

(** The title with its [except:] handler, which itself may raise. *)
Definition video_title (w : world) (video_id : json) : result json :=
  match title_lookup w video_id with
  | Ok title => Ok title
  | Raise _ => short <- py_take video_id 10 ;; py_add (JStr "Video ") short
  end.

Definition fetch_top_video (w : world) (start_date end_date : string)
  : result video_summary :=
  response <- reports_query w (top_video_query start_date end_date) ;;
  rows <- py_get_default response "rows" (JList []) ;;
  if negb (py_truthy rows) then Ok NO_VIDEOS
  else
    row <- py_index rows 0 ;;
    video_id <- py_index row 0 ;;
    views <- py_index row 1 ;;
    minutes_watched <- py_index row 2 ;;
    likes <- cell_or_zero row 3 ;;
    title <- video_title w video_id ;;
    hours <- py_truediv minutes_watched (JInt 60) ;;
    Ok {| vs_title := title;
          vs_views := views;
          vs_watch_hours := JFloat (Py_float.round1 hours);
          vs_likes := likes |}.

(** *** Subscriber growth chart *)

Record chart : Type := {
  labels : list string;
  values : list json
}.

(** One turn of the loop over the selected rows. *)
Definition chart_point (w : world) (c : chart) (row : json) : result chart :=
  date_str <- py_index row 0 ;;
  subs_gained <- cell_or_zero row 4 ;;
  subs_lost <- cell_or_zero row 5 ;;
  net_growth <- py_sub subs_gained subs_lost ;;
  date_obj <- py_strptime w date_str "%Y-%m-%d" ;;
  let formatted_date := strftime w date_obj "%b %d" in
  Ok {| labels := (labels c ++ [formatted_date])%list;
        values := (values c ++ [net_growth])%list |}.

(** [max(1, len(rows) // 6)] *)
Definition chart_step (n : Z) : Z := Z.max 1 (n / 6).

Definition calculate_subscriber_growth_chart (w : world) (metrics_data : json)
  : result chart :=
  rows <- py_get_default metrics_data "rows" (JList []) ;;
  if negb (py_truthy rows) then Ok {| labels := []; values := [] |}
  else
    n <- py_len rows ;;
    let step := chart_step n in
    selected_rows <- py_stride rows step ;;
    items <- py_iter selected_rows ;;
    foldM (chart_point w) items {| labels := []; values := [] |}.

(** *** Recently published videos *)

Record launch : Type := {
  date : string;
  full_date : string;
  title : json;
  views : Z;
  likes : Z;
  video_id : json
}.

(** [list.sort(key=...)] is a stable sort on the keys, compared as
    strings; an insertion sort that places an item before the first one
    with a key at least as large yields the same list. *)
Fixpoint insert_by {A : Type} (key : A -> string) (x : A) (l : list A) : list A :=
  match l with
  | [] => [x]
  | y :: l' =>
      if String.leb (key x) (key y) then x :: y :: l'
      else y :: insert_by key x l'
  end.

Definition sort_by {A : Type} (key : A -> string) (l : list A) : list A :=
  fold_right (insert_by key) [] l.

Definition recent_search (start_rfc3339 : string) : search_query :=
  {| sq_part := "snippet";
     sq_channelId := CHANNEL_ID;
     sq_type := "video";
     sq_publishedAfter := start_rfc3339;
     sq_maxResults := 50;
     sq_order := "date" |}.

(** One turn of the loop over the search results. *)
Definition add_launch (w : world) (video_launches : list launch) (item : json)
  : result (list launch) :=
  id <- py_item item "id" ;;
  vid <- py_item id "videoId" ;;
  snippet <- py_item item "snippet" ;;
  video_response <- videos_list w "statistics" vid ;;
  found <- py_item video_response "items" ;;
  if py_truthy found then
    first <- py_index found 0 ;;
    stats <- py_item first "statistics" ;;
    published_at <- py_item snippet "publishedAt" ;;
    pub_datetime <- py_strptime w published_at "%Y-%m-%dT%H:%M:%SZ" ;;
    let formatted_date := strftime w pub_datetime "%b %d" in
    let full := strftime w pub_datetime "%Y-%m-%d" in
    ttl <- py_item snippet "title" ;;
    view_count <- py_get_default stats "viewCount" (JInt 0) ;;
    nviews <- py_int view_count ;;
    like_count <- py_get_default stats "likeCount" (JInt 0) ;;
    nlikes <- py_int like_count ;;
    Ok (video_launches ++
        [{| date := formatted_date;
            full_date := full;
            title := ttl;
            views := nviews;
            likes := nlikes;
            video_id := vid |}])%list
  else Ok video_launches.

(** The [try] block of [fetch_recent_videos]. *)
Definition recent_videos_body (w : world) (start_date end_date : string)
  : result (list launch) :=
  start_datetime <- strptime w start_date "%Y-%m-%d" ;;
  let start_rfc3339 := strftime w start_datetime "%Y-%m-%dT00:00:00Z" in
  search_response <- search_list w (recent_search start_rfc3339) ;;
  found <- py_get_default search_response "items" (JList []) ;;
  items <- py_iter found ;;
  video_launches <- foldM (add_launch w) items [] ;;
  Ok (sort_by full_date video_launches).

Definition fetch_recent_videos (w : world) (start_date end_date : string)
  : list launch :=
  try_except (recent_videos_body w start_date end_date) (fun _ => []).

(** *** The report *)

Record report : Type := {
  last_updated : string;
  total_watch_hours : json;
  avg_view_duration : Z;
  duration_change : json;
  click_through_rate : json;
  ctr_change : json;
  subscribers_gained : json;
  subscribers_lost : json;
  subscriber_growth_chart : chart;
  traffic_sources : list (string * Z);
  best_video : video_summary;
  video_launches : list launch
}.

(** How a run ends: the report is written and the process exits with
    status zero; an exception escapes [main], after the report was written
    or before; or [exit(code)] is called. *)
Inductive outcome : Type :=
| Completed (r : report)
| Aborted (written : option report) (e : exn)
| Exited (code : Z).

(** [rows[-1][3] if rows else 0] *)
Definition last_duration (rows : json) : result json :=
  if py_truthy rows then
    last_row <- py_index rows (-1) ;;
    py_index last_row 3
  else Ok (JInt 0).

(** The part of [main] between the five fetches and the export: the
    totals, the chart and the report. *)
Definition assemble (w : world) (metrics_data ctr : json)
           (sources : list (string * Z)) (top_video : video_summary)
           (launches : list launch) : result report :=
  rows <- py_get_default metrics_data "rows" (JList []) ;;
  items <- py_iter rows ;;
  total_minutes_watched <- sum_over (fun row => py_index row 2) items ;;
  total_watch_hours <- py_truediv total_minutes_watched (JInt 60) ;;
  avg_view_duration <- last_duration rows ;;
  total_subs_gained <- sum_over (fun row => py_index row 4) items ;;
  total_subs_lost <- sum_over (fun row => py_index row 5) items ;;
  subscriber_chart <- calculate_subscriber_growth_chart w metrics_data ;;
  duration <- py_int avg_view_duration ;;
  rate <- py_round1 ctr ;;
  Ok {| last_updated := strftime w (now w) "%Y-%m-%d";
        total_watch_hours := JFloat (Py_float.round1 total_watch_hours);
        avg_view_duration := duration;
        duration_change := JNone;
        click_through_rate := rate;
        ctr_change := JNone;
        subscribers_gained := total_subs_gained;
        subscribers_lost := total_subs_lost;
        subscriber_growth_chart := subscriber_chart;
        traffic_sources := sources;
        best_video := top_video;
        video_launches := launches |}.

(** The summary printed after the export; only the slice of the title
    and the subtraction can raise. *)
Definition print_summary (r : report) : result unit :=
  _ <- py_sub (subscribers_gained r) (subscribers_lost r) ;;
  _ <- py_take (vs_title (best_video r)) 50 ;;
  Ok tt.

Definition main (w : world) : outcome :=
  match authenticate w with
  | SystemExit code => Exited code
  | AuthError e => Aborted None e
  | Authenticated =>
      let '(start_date, end_date) := get_date_range w 30 in
      match fetch_channel_metrics w start_date end_date with
      | Raise e => Aborted None e
      | Ok metrics_data =>
          let ctr := fetch_click_through_rate w start_date end_date in
          let sources := fetch_traffic_sources w start_date end_date in
          match fetch_top_video w start_date end_date with
          | Raise e => Aborted None e
          | Ok top_video =>
              let launches := fetch_recent_videos w start_date end_date in
              match assemble w metrics_data ctr sources top_video launches with
              | Raise e => Aborted None e
              | Ok r =>
                  match print_summary r with
                  | Ok _ => Completed r
                  | Raise e => Aborted (Some r) e
                  end
              end
          end
      end
  end.

(** ** Sample worlds *)

Module Sample.

Definition day_row (d : string) (v m dur g l : Z) : json :=
  JList [JStr d; JInt v; JInt m; JInt dur; JInt g; JInt l].

Definition metrics_rows : list json :=
  [day_row "2024-03-01" 120 600 100 5 1;
   day_row "2024-03-02" 150 720 200 7 2;
   day_row "2024-03-03" 90 480 300 3 4].

Definition table (rows : list json) : json := JDict [("rows", JList rows)].

Definition ctr_rows : list json :=
  [JList [JStr "2024-03-01"; JInt 120; JInt 200; JInt 7; JFloat 3.5];
   JList [JStr "2024-03-02"; JInt 150; JInt 200; JInt 8; JFloat 4];
   JList [JStr "2024-03-03"; JInt 90; JInt 200; JInt 8; JFloat 4]].

Definition traffic_rows : list json :=
  [JList [JStr "YT_SEARCH"; JInt 414];
   JList [JStr "RELATED_VIDEO"; JInt 314];
   JList [JStr "EXT_URL"; JInt 194];
   JList [JStr "NOTIFICATION"; JInt 78]].

Definition top_rows : list json :=
  [JList [JStr "dQw4w9WgXcQ_extra"; JInt 5000; JInt 1234; JInt 77]].

Definition snippet_of (ttl published : string) : json :=
  JDict [("title", JStr ttl); ("publishedAt", JStr published)].

Definition search_items : list json :=
  [JDict [("id", JDict [("videoId", JStr "vidC")]);
          ("snippet", snippet_of "Third" "2024-03-20T10:00:00Z")];
   JDict [("id", JDict [("videoId", JStr "vidA")]);
          ("snippet", snippet_of "First" "2024-03-02T09:30:00Z")];
   JDict [("id", JDict [("videoId", JStr "vidB")]);
          ("snippet", snippet_of "Second" "2024-03-11T18:45:10Z")]].

Definition reports (q : report_query) : result json :=
  if String.eqb (rq_dimensions q) "video" then Ok (table top_rows)
  else if String.eqb (rq_dimensions q) "insightTrafficSourceType" then Ok (table traffic_rows)
  else if String.eqb (rq_metrics q) "views,cardImpressions,cardClicks,cardClickRate"
       then Ok (table ctr_rows)
  else Ok (table metrics_rows).

Definition videos (part : string) (id : json) : result json :=
  if String.eqb part "snippet"
  then Ok (JDict [("items", JList [JDict [("snippet", snippet_of "Best of March" "2024-03-02T09:30:00Z")]])])
  else Ok (JDict [("items", JList [JDict [("statistics",
                    JDict [("viewCount", JStr "1500"); ("likeCount", JStr "42")])]])]).

(** A run in which every call succeeds. *)
Definition healthy : world :=
  {| token_file := Some (Some {| valid := true; expired := false; refresh_token := true |});
     credentials_file_exists := true;
     refresh := Ok tt;
     run_local_server := Ok tt;
     now := {| year := 2024; month := 3; day := 31; hour := 12; minute := 0; second := 0 |};
     strptime := C_datetime.strptime;
     strftime := C_datetime.strftime;
     minus_days := C_datetime.minus_days;
     reports_query := reports;
     videos_list := videos;
     search_list := fun _ => Ok (JDict [("items", JList search_items)]) |}.

Definition with_reports (w : world) (f : report_query -> result json) : world :=
  {| token_file := token_file w;
     credentials_file_exists := credentials_file_exists w;
     refresh := refresh w;
     run_local_server := run_local_server w;
     now := now w;
     strptime := strptime w;
     strftime := strftime w;
     minus_days := minus_days w;
     reports_query := f;
     videos_list := videos_list w;
     search_list := search_list w |}.

Definition with_data_api (w : world) (v : string -> json -> result json)
           (s : search_query -> result json) : world :=
  {| token_file := token_file w;
     credentials_file_exists := credentials_file_exists w;
     refresh := refresh w;
     run_local_server := run_local_server w;
     now := now w;
     strptime := strptime w;
     strftime := strftime w;
     minus_days := minus_days w;
     reports_query := reports_query w;
     videos_list := v;
     search_list := s |}.

(** The report query [failing] raises, the others answer as in [w]. *)
Definition failing_on (w : world) (dimensions metrics : string) : world :=
  with_reports w (fun q =>
    if String.eqb (rq_dimensions q) dimensions && String.eqb (rq_metrics q) metrics
    then Raise HttpError else reports_query w q).




(** Every query with a handler fails: click-through rate, traffic
    sources, the search and both video lookups. *)
Definition degraded : world :=
  with_data_api
    (failing_on
       (failing_on healthy "day" "views,cardImpressions,cardClicks,cardClickRate")
       "insightTrafficSourceType" "views")
    (fun _ _ => Raise HttpError) (fun _ => Raise HttpError).

(** The [day] queries answer with the given table. *)
Definition with_metrics (w : world) (response : json) : world :=
  with_reports w (fun q =>
    if String.eqb (rq_dimensions q) "day" then Ok response else reports_query w q).

Definition empty_metrics : world := with_metrics healthy (table []).

(** The top-video query finds nothing. *)
Definition no_videos : world :=
  with_reports healthy (fun q =>
    if String.eqb (rq_dimensions q) "video" then Ok (table []) else reports q).

(** Thirty daily rows, 2024-03-01 to 2024-03-30. *)
Definition thirty_rows : list json :=
  map (fun i => day_row ("2024-03-" ++ C_datetime.padded 2 (Z.of_nat i))
                        100 60 200 (Z.of_nat i) 1)
      (seq 1 30).

(** The last day reports a fractional duration. *)
Definition fractional_rows : list json :=
  [day_row "2024-03-01" 120 600 100 5 1;
   JList [JStr "2024-03-02"; JInt 150; JInt 720; JFloat 245.7; JInt 7; JInt 2]].

End Sample.

(** ** Notions the specification refers to *)

(** The arithmetic mean of column [i] of a table, the figure the
    specification contrasts the reported ones with. *)
Definition column_mean (i : Z) (rows : list json) : result float :=
  total <- sum_over (fun row => py_index row i) rows ;;
  py_truediv total (JInt (Z.of_nat (List.length rows))).

(** The pieces of [s] between occurrences of [sep]; [cur] is the piece
    being read, in reverse. *)
Fixpoint split_on (sep : ascii) (s : string) (cur : string) : list string :=
  match s with
  | EmptyString => [cur]
  | String c s' =>
      if Ascii.eqb c sep then cur :: split_on sep s' ""
      else split_on sep s' (cur ++ String c "")
  end.

(** The column layout of a report table: the Analytics API puts the
    requested dimensions first, then the metrics in the order asked for. *)
Definition columns (q : report_query) : list string :=
  (split_on "," (rq_dimensions q) "" ++ split_on "," (rq_metrics q) "")%list.

(** ** Notions used in the statements *)

Definition keys {A : Type} (d : list (string * A)) : list string := map fst d.

Definition BUCKETS : list string := ["search"; "browse"; "external"; "other"].

Definition start_of (w : world) : string := fst (get_date_range w 30).
Definition end_of (w : world) : string := snd (get_date_range w 30).

(** What [assemble] computes from the metrics table alone. *)
Record totals : Type := {
  t_watch_hours : float;
  t_duration : Z;
  t_gained : json;
  t_lost : json;
  t_chart : chart
}.

Definition report_of (w : world) (t : totals) (rate : json)
           (sources : list (string * Z)) (top_video : video_summary)
           (launches : list launch) : report :=
  {| last_updated := strftime w (now w) "%Y-%m-%d";
     total_watch_hours := JFloat (Py_float.round1 (t_watch_hours t));
     avg_view_duration := t_duration t;
     duration_change := JNone;
     click_through_rate := rate;
     ctr_change := JNone;
     subscribers_gained := t_gained t;
     subscribers_lost := t_lost t;
     subscriber_growth_chart := t_chart t;
     traffic_sources := sources;
     best_video := top_video;
     video_launches := launches |}.

Definition channel_totals (w : world) (metrics_data : json) : result totals :=
  rows <- py_get_default metrics_data "rows" (JList []) ;;
  items <- py_iter rows ;;
  total_minutes_watched <- sum_over (fun row => py_index row 2) items ;;
  total_watch_hours <- py_truediv total_minutes_watched (JInt 60) ;;
  avg_view_duration <- last_duration rows ;;
  total_subs_gained <- sum_over (fun row => py_index row 4) items ;;
  total_subs_lost <- sum_over (fun row => py_index row 5) items ;;
  subscriber_chart <- calculate_subscriber_growth_chart w metrics_data ;;
  duration <- py_int avg_view_duration ;;
  Ok {| t_watch_hours := total_watch_hours;
        t_duration := duration;
        t_gained := total_subs_gained;
        t_lost := total_subs_lost;
        t_chart := subscriber_chart |}.

Definition by_full_date (a b : launch) : Prop :=
  String.leb (full_date a) (full_date b) = true.

(** A row as the metrics query delivers it: the day, then five ints. *)
Definition api_day_row (w : world) (row : json) : Prop :=
  exists d v m dur g l dt,
    row = JList [JStr d; JInt v; JInt m; JInt dur; JInt g; JInt l]
    /\ strptime w d "%Y-%m-%d" = Ok dt.

(** The credential object [authenticate] starts from: the unpickled
    token, if the token file exists and holds one. *)
Definition stored_token (w : world) : option credentials :=
  match token_file w with
  | Some loaded => loaded
  | None => None
  end.

(** A stored token that lets [authenticate] go on without the
    installed-app flow: it is valid, or expired with a refresh token. *)
Definition usable (c : credentials) : bool :=
  valid c || (expired c && refresh_token c).

(** The bucket of an upper-cased source type, with the tests that can
    decide: [SEARCH]; [BROWSE], [SUGGESTED] or [RELATED]; [EXT]. *)
Definition bucket_by_keyword (u : string) : string :=
  if Py_str.contains "SEARCH" u then "search"
  else if Py_str.contains "BROWSE" u || Py_str.contains "SUGGESTED" u
          || Py_str.contains "RELATED" u then "browse"
  else if Py_str.contains "EXT" u then "external"
  else "other".

(** The int in cell [i] of a row (0 when there is none). *)
Definition cell_int (i : nat) (row : json) : Z :=
  match row with
  | JList l => match nth_error l i with
               | Some (JInt z) => z
               | _ => 0
               end
  | _ => 0
  end.

Definition column_total (i : nat) (rows : list json) : Z :=
  fold_left Z.add (map (cell_int i) rows) 0.

(** The label and the value the chart shows for a daily row. *)
Definition label_of (w : world) (row : json) : string :=
  match row with
  | JList (JStr d :: _) =>
      match strptime w d "%Y-%m-%d" with
      | Ok dt => strftime w dt "%b %d"
      | Raise _ => ""
      end
  | _ => ""
  end.

Definition net_growth_of (row : json) : json :=
  JInt (cell_int 4 row - cell_int 5 row).

(** The number of rows the chart keeps out of [n]. *)
Definition chart_points (n : nat) : nat :=
  List.length (every_nth 0 (Z.to_nat (chart_step (Z.of_nat n))) (seq 0 n)).

(** [item['id']['videoId']] *)
Definition item_video_id (item : json) : result json :=
  id <- py_item item "id" ;; py_item id "videoId".

(** [picked_from items launches]: the launches were made from some of the
    items, one launch per item at most, and stand in the order of those
    items. *)
Inductive picked_from : list json -> list launch -> Prop :=
| picked_none : picked_from [] []
| picked_skip (item : json) (items : list json) (ls : list launch) :
    picked_from items ls -> picked_from (item :: items) ls
| picked_take (item : json) (items : list json) (l : launch) (ls : list launch) :
    item_video_id item = Ok (video_id l) ->
    picked_from items ls -> picked_from (item :: items) (l :: ls).

(** A row as the click-through-rate query delivers it: the day, then
    views, card impressions and card clicks as ints and the card click rate
    as a float. *)
Definition ctr_api_row (row : json) : Prop :=
  exists d v impressions clicks rate,
    row = JList [JStr d; JInt v; JInt impressions; JInt clicks; JFloat rate].

(** Further sample worlds. *)
Module Cases.

(** One day with 7 card clicks and a card click rate of 3.5. *)
Definition clicks_and_rate_rows : list json :=
  [JList [JStr "2024-03-01"; JInt 120; JInt 200; JInt 7; JFloat 3.5]].

Definition clicks_and_rate : world :=
  Sample.with_reports Sample.healthy (fun q =>
    if String.eqb (rq_metrics q) "views,cardImpressions,cardClicks,cardClickRate"
    then Ok (Sample.table clicks_and_rate_rows) else Sample.reports q).

(** No token file and no client-secret file. *)
Definition unconfigured : world :=
  {| token_file := None;
     credentials_file_exists := false;
     refresh := Ok tt;
     run_local_server := Ok tt;
     now := now Sample.healthy;
     strptime := strptime Sample.healthy;
     strftime := strftime Sample.healthy;
     minus_days := minus_days Sample.healthy;
     reports_query := reports_query Sample.healthy;
     videos_list := videos_list Sample.healthy;
     search_list := search_list Sample.healthy |}.

(** An expired token whose refresh fails, with the client-secret file in
    place. *)
Definition refresh_fails : world :=
  {| token_file := Some (Some {| valid := false; expired := true; refresh_token := true |});
     credentials_file_exists := true;
     refresh := Raise HttpError;
     run_local_server := Ok tt;
     now := now Sample.healthy;
     strptime := strptime Sample.healthy;
     strftime := strftime Sample.healthy;
     minus_days := minus_days Sample.healthy;
     reports_query := reports_query Sample.healthy;
     videos_list := videos_list Sample.healthy;
     search_list := search_list Sample.healthy |}.

(** The click-through-rate query returns rows of three cells. *)
Definition short_ctr_rows : list json :=
  [JList [JStr "2024-03-01"; JInt 120; JInt 200];
   JList [JStr "2024-03-02"; JInt 150]].

Definition short_ctr : world :=
  Sample.with_reports Sample.healthy (fun q =>
    if String.eqb (rq_metrics q) "views,cardImpressions,cardClicks,cardClickRate"
    then Ok (Sample.table short_ctr_rows) else Sample.reports q).

(** The traffic-source query returns source types without views. *)
Definition zero_traffic_rows : list json :=
  [JList [JStr "YT_SEARCH"; JInt 0]; JList [JStr "EXT_URL"; JInt 0]].

Definition zero_traffic : world :=
  Sample.with_reports Sample.healthy (fun q =>
    if String.eqb (rq_dimensions q) "insightTrafficSourceType"
    then Ok (Sample.table zero_traffic_rows) else Sample.reports q).

(** The title lookup answers without an [items] entry. *)
Definition no_title_items : world :=
  Sample.with_data_api Sample.healthy
    (fun part id => if String.eqb part "snippet" then Ok (JDict [])
                    else Sample.videos part id)
    (search_list Sample.healthy).

(** The title lookup returns a null title. *)
Definition null_title : world :=
  Sample.with_data_api Sample.healthy
    (fun part id =>
       if String.eqb part "snippet"
       then Ok (JDict [("items", JList [JDict [("snippet",
                          JDict [("title", JNone)])]])])
       else Sample.videos part id)
    (search_list Sample.healthy).

(** The top row carries a number where the video identifier belongs, and
    the Data API is down. *)
Definition numeric_id : world :=
  Sample.with_data_api
    (Sample.with_reports Sample.healthy (fun q =>
       if String.eqb (rq_dimensions q) "video"
       then Ok (Sample.table [JList [JInt 7; JInt 5000; JInt 1234]])
       else Sample.reports q))
    (fun _ _ => Raise HttpError) (fun _ => Raise HttpError).

(** A metrics table whose second row lacks the last cell. *)
Definition short_row_table : list json :=
  [Sample.day_row "2024-03-01" 120 600 100 5 1;
   JList [JStr "2024-03-02"; JInt 150; JInt 720; JInt 200; JInt 7]].

Definition short_row : world :=
  Sample.with_metrics Sample.healthy (Sample.table short_row_table).

Definition found_item (id ttl published : string) : json :=
  JDict [("id", JDict [("videoId", JStr id)]);
         ("snippet", Sample.snippet_of ttl published)].

(** Two launches on the same day, returned after a later one. *)
Definition same_day_items : list json :=
  [found_item "vidC" "Late" "2024-03-20T10:00:00Z";
   found_item "vidA" "Morning" "2024-03-11T09:30:00Z";
   found_item "vidB" "Evening" "2024-03-11T18:45:10Z"].

Definition same_day : world :=
  Sample.with_data_api Sample.healthy Sample.videos
    (fun _ => Ok (JDict [("items", JList same_day_items)])).

(** The second search item has no snippet. *)
Definition bad_items : list json :=
  [found_item "vidA" "First" "2024-03-02T09:30:00Z";
   JDict [("id", JDict [("videoId", JStr "vidB")])]].

Definition bad_item : world :=
  Sample.with_data_api Sample.healthy Sample.videos
    (fun _ => Ok (JDict [("items", JList bad_items)])).

End Cases.

(** * Properties *)

(** ** Reasoning about results *)

Lemma bind_ok {A B : Type} (m : result A) (k : A -> result B) (b : B) :
  bind m k = Ok b -> exists a, m = Ok a /\ k a = Ok b.
Proof.
  destruct m as [a | e]; simpl; intros H.
  - exists a. split; [reflexivity | exact H].
  - discriminate H.
Qed.

Ltac inv_bind H :=
  let v := fresh "v" in
  let E := fresh "E" in
  apply bind_ok in H; destruct H as (v & E & H).

Ltac inv_ok H := injection H as H; subst.

Lemma foldM_invariant {A B : Type} (P : A -> Prop) (f : A -> B -> result A) :
  (forall a b a', P a -> f a b = Ok a' -> P a') ->
  forall l a a', P a -> foldM f l a = Ok a' -> P a'.
Proof.
  intros step l. induction l as [| b l IH]; simpl; intros a a' Pa H.
  - inv_ok H. exact Pa.
  - inv_bind H. eapply IH; [eapply step |]; eassumption.
Qed.

(** ** The value layer on known inputs *)

Example round_ties_to_even :
  py_round (JFloat 2.5) = Ok 2 /\ py_round (JFloat 3.5) = Ok 4
  /\ py_round (JFloat (-2.5)) = Ok (-2) /\ py_round (JFloat 41.4) = Ok 41
  /\ py_round (JInt 7) = Ok 7 /\ py_round (JFloat nan) = Raise ValueError
  /\ py_round (JFloat infinity) = Raise OverflowError
  /\ py_round (JStr "7") = Raise TypeError.
Proof. repeat split; vm_compute; reflexivity. Qed.

Example round_to_one_decimal :
  py_round1 (JFloat 4.8) = Ok (JFloat 4.8)
  /\ py_round1 (JFloat 0.25) = Ok (JFloat 0.2)
  /\ py_round1 (JFloat 0.35) = Ok (JFloat 0.3)
  /\ py_round1 (JFloat 1.25) = Ok (JFloat 1.2)
  /\ py_round1 (JFloat 20.566666666666666) = Ok (JFloat 20.6)
  /\ py_round1 (JFloat (-0.04)) = Ok (JFloat neg_zero)
  /\ py_round1 (JInt 5) = Ok (JInt 5).
Proof. repeat split; vm_compute; reflexivity. Qed.

(** On small ints the correctly rounded quotient is the float quotient of
    the converted operands. *)
Example true_division :
  py_truediv (JInt 1) (JInt 3) = Ok (1 / 3)%float
  /\ py_truediv (JInt 414) (JInt 1000) = Ok 0.414%float
  /\ py_truediv (JInt (-7)) (JInt 2) = Ok (-3.5)%float
  /\ py_truediv (JInt 0) (JInt 60) = Ok zero
  /\ py_truediv (JInt (10 ^ 400)) (JInt (10 ^ 399)) = Ok 10%float
  /\ py_truediv (JInt 1) (JInt 0) = Raise ZeroDivisionError
  /\ py_truediv (JFloat 1) (JFloat 0) = Raise ZeroDivisionError
  /\ py_truediv (JInt (10 ^ 400)) (JInt 1) = Raise OverflowError
  /\ py_truediv (JStr "1") (JInt 2) = Raise TypeError.
Proof. repeat split; vm_compute; reflexivity. Qed.

Example int_conversion :
  py_int (JFloat 2.5) = Ok 2 /\ py_int (JFloat (-3.7)) = Ok (-3)
  /\ py_int (JStr " 1_500 ") = Ok 1500 /\ py_int (JStr "-42") = Ok (-42)
  /\ py_int (JStr "4.5") = Raise ValueError /\ py_int (JStr "") = Raise ValueError
  /\ py_int JNone = Raise TypeError /\ py_int (JFloat nan) = Raise ValueError.
Proof. repeat split; vm_compute; reflexivity. Qed.

Example indexing :
  py_index (JList [JInt 1; JInt 2; JInt 3]) (-1) = Ok (JInt 3)
  /\ py_index (JList [JInt 1; JInt 2; JInt 3]) 3 = Raise IndexError
  /\ py_index (JList []) (-1) = Raise IndexError
  /\ py_index (JStr "abc") 1 = Ok (JStr "b")
  /\ py_index (JInt 5) 0 = Raise TypeError
  /\ py_stride (JList [JInt 0; JInt 1; JInt 2; JInt 3; JInt 4]) 2
     = Ok (JList [JInt 0; JInt 2; JInt 4]).
Proof. repeat split; vm_compute; reflexivity. Qed.

Example dates :
  C_datetime.strptime "2024-03-05" "%Y-%m-%d"
  = Ok {| year := 2024; month := 3; day := 5; hour := 0; minute := 0; second := 0 |}
  /\ C_datetime.strptime "2024-02-30" "%Y-%m-%d" = Raise ValueError
  /\ C_datetime.strptime "2024-10-15T08:09:10Z" "%Y-%m-%dT%H:%M:%SZ"
     = Ok {| year := 2024; month := 10; day := 15;
             hour := 8; minute := 9; second := 10 |}
  /\ C_datetime.strftime
       {| year := 2024; month := 10; day := 5; hour := 8; minute := 9; second := 10 |}
       "%b %d" = "Oct 05"
  /\ get_date_range Sample.healthy 30 = ("2024-03-01", "2024-03-31").
Proof. repeat split; vm_compute; reflexivity. Qed.

(** ** Traffic sources *)

Lemma dict_set_keys {A : Type} (k : string) (v v' : A) (d : list (string * A)) :
  dict_lookup k d = Some v -> keys (dict_set k v' d) = keys d.
Proof.
  induction d as [| [k0 v0] d IH]; simpl; [discriminate |].
  destruct (String.eqb k k0) eqn:E; intros H.
  - apply String.eqb_eq in E. subst. reflexivity.
  - simpl. f_equal. exact (IH H).
Qed.

Lemma dict_add_keys (k : string) (v : json) (d d' : list (string * json)) :
  dict_add k v d = Ok d' -> keys d' = keys d.
Proof.
  unfold dict_add. destruct (dict_lookup k d) eqn:L; [| discriminate].
  intros H. inv_bind H. inv_ok H. eapply dict_set_keys, L.
Qed.

Lemma add_row_keys (total_views row : json) (d d' : list (string * json)) :
  add_row total_views d row = Ok d' -> keys d' = keys d.
Proof.
  unfold add_row. intros H. do 4 inv_bind H. eapply dict_add_keys, H.
Qed.

Lemma round_sources_keys (d : list (string * json)) :
  forall r, round_sources d = Ok r -> keys r = keys d.
Proof.
  unfold round_sources.
  induction d as [| [k v] d IH]; simpl; intros r H.
  - inv_ok H. reflexivity.
  - inv_bind H. inv_bind E. inv_ok E. inv_bind H. inv_ok H.
    simpl. f_equal. apply IH. assumption.
Qed.

Lemma four_buckets {A : Type} (d : list (string * A)) :
  keys d = BUCKETS ->
  exists a b c e,
    d = [("search", a); ("browse", b); ("external", c); ("other", e)].
Proof.
  destruct d as [| [k1 a] [| [k2 b] [| [k3 c] [| [k4 e] [| ? ?]]]]];
    simpl; try discriminate.
  intros H. injection H as -> -> -> ->. now exists a, b, c, e.
Qed.

Lemma adjust_to_100_total (a b c e : Z) :
  exists a' b' c' e',
    adjust_to_100 [("search", a); ("browse", b); ("external", c); ("other", e)]
    = Ok [("search", a'); ("browse", b'); ("external", c'); ("other", e')]
    /\ a' + b' + c' + e' = 100.
Proof.
  unfold adjust_to_100, total_of, max_key, dict_values.
  cbn -[Z.add Z.sub Z.ltb Z.eqb].
  destruct (0 + a + b + c + e =? 100) eqn:T; cbn -[Z.add Z.sub Z.ltb Z.eqb].
  - apply Z.eqb_eq in T. exists a, b, c, e. split; [reflexivity | lia].
  - destruct (a <? b); cbn -[Z.add Z.sub Z.ltb Z.eqb];
      [destruct (b <? c) | destruct (a <? c)]; cbn -[Z.add Z.sub Z.ltb Z.eqb];
      [destruct (c <? e) | destruct (b <? e)
       | destruct (c <? e) | destruct (a <? e)]; cbn -[Z.add Z.sub Z.ltb Z.eqb];
      do 4 eexists; (split; [reflexivity | lia]).
Qed.

(** C2. Whatever the traffic-source query does (any rows, no rows, rows
    whose views add up to zero, or a failure), [fetch_traffic_sources]
    returns the four buckets search, browse, external and other, and
    their values add up to exactly 100. *)
Theorem traffic_sources_sum_to_100 (w : world) (start_date end_date : string) :
  exists a b c e,
    fetch_traffic_sources w start_date end_date
    = [("search", a); ("browse", b); ("external", c); ("other", e)]
    /\ a + b + c + e = 100.
Proof.
  unfold fetch_traffic_sources, try_except.
  destruct (traffic_sources_body w start_date end_date) as [r | x] eqn:B.
  - unfold traffic_sources_body in B. do 6 inv_bind B.
    assert (K : keys v3 = BUCKETS).
    { apply (foldM_invariant (fun d => keys d = BUCKETS)) in E3.
      - exact E3.
      - intros d row d' Hd Hrow. rewrite <- Hd. eapply add_row_keys, Hrow.
      - reflexivity. }
    apply round_sources_keys in E4. rewrite K in E4.
    destruct (four_buckets _ E4) as (a & b & c & e & ->).
    destruct (adjust_to_100_total a b c e) as (a' & b' & c' & e' & Hadj & Hsum).
    rewrite Hadj in B. inv_ok B. now exists a', b', c', e'.
  - exists 42, 31, 18, 9. split; reflexivity.
Qed.

(** The rounded shares of the specification's example: 41, 31, 19 and 8. *)
Lemma sample_rows_round_to_41_31_19_8 :
  exists sources,
    foldM (add_row (JInt 1000)) Sample.traffic_rows INITIAL_SOURCES = Ok sources
    /\ round_sources sources
       = Ok [("search", 41); ("browse", 31); ("external", 19); ("other", 8)].
Proof. eexists. split; vm_compute; reflexivity. Qed.

(** C3, as stated, fails: adjusting the shares 41, 31, 19, 8 does not give
    the default distribution 42, 31, 18, 9. *)
Lemma adjusted_shares_differ_from_default :
  adjust_to_100 [("search", 41); ("browse", 31); ("external", 19); ("other", 8)]
  <> Ok DEFAULT_SOURCES.
Proof. vm_compute. discriminate. Qed.

(** C3, amended. When the four buckets round to 41, 31, 19 and 8 (sum 99)
    the adjustment adds the missing 1 to the largest bucket, search, and
    the result is 42, 31, 19, 8: this is what [fetch_traffic_sources]
    returns whenever the shares round to these values.  The result adds up
    to 100 and is not the default distribution 42, 31, 18, 9. *)
Theorem adjustment_raises_largest_bucket :
  adjust_to_100 [("search", 41); ("browse", 31); ("external", 19); ("other", 8)]
  = Ok [("search", 42); ("browse", 31); ("external", 19); ("other", 8)]
  /\ total_of [("search", 42); ("browse", 31); ("external", 19); ("other", 8)] = 100
  /\ [("search", 42); ("browse", 31); ("external", 19); ("other", 8)]
     <> DEFAULT_SOURCES
  /\ DEFAULT_SOURCES = [("search", 42); ("browse", 31); ("external", 18); ("other", 9)]
  /\ (forall w start_date end_date response rows items total_views sources,
         reports_query w (traffic_query start_date end_date) = Ok response ->
         py_get_default response "rows" (JList []) = Ok rows ->
         py_iter rows = Ok items ->
         sum_over (fun row => py_index row 1) items = Ok total_views ->
         foldM (add_row total_views) items INITIAL_SOURCES = Ok sources ->
         round_sources sources
         = Ok [("search", 41); ("browse", 31); ("external", 19); ("other", 8)] ->
         fetch_traffic_sources w start_date end_date
         = [("search", 42); ("browse", 31); ("external", 19); ("other", 8)])
  /\ fetch_traffic_sources Sample.healthy "2024-03-01" "2024-03-31"
     = [("search", 42); ("browse", 31); ("external", 19); ("other", 8)]
  /\ fetch_traffic_sources
       (Sample.failing_on Sample.healthy "insightTrafficSourceType" "views")
       "2024-03-01" "2024-03-31"
     = DEFAULT_SOURCES.
Proof.
  split; [vm_compute; reflexivity |].
  split; [vm_compute; reflexivity |].
  split; [discriminate |].
  split; [reflexivity |].
  split; [| split; vm_compute; reflexivity].
  intros w start_date end_date response rows items total_views sources
         Hq Hrows Hitems Htotal Hsources Hrounded.
  unfold fetch_traffic_sources, traffic_sources_body.
  rewrite Hq. cbn [bind]. rewrite Hrows. cbn [bind]. rewrite Hitems. cbn [bind].
  rewrite Htotal. cbn [bind]. rewrite Hsources. cbn [bind].
  rewrite Hrounded. reflexivity.
Qed.

(** ** Average view duration *)

Lemma last_of_snoc (init : list json) (last_row : json) :
  py_index (JList (init ++ [last_row])) (-1) = Ok last_row.
Proof.
  unfold py_index, norm_index. rewrite length_app. simpl List.length.
  replace (-1 <? 0) with true by reflexivity.
  replace ((0 <=? -1 + Z.of_nat (List.length init + 1))
           && (-1 + Z.of_nat (List.length init + 1)
               <? Z.of_nat (List.length init + 1))) with true
    by (symmetry; apply andb_true_intro; split;
        [apply Z.leb_le | apply Z.ltb_lt]; lia).
  replace (Z.to_nat (-1 + Z.of_nat (List.length init + 1)))
    with (List.length init + 0)%nat by lia.
  rewrite nth_error_app2 by lia.
  replace (List.length init + 0 - List.length init)%nat with O by lia.
  reflexivity.
Qed.

Lemma snoc_truthy (init : list json) (last_row : json) :
  py_truthy (JList (init ++ [last_row])) = true.
Proof. destruct init; reflexivity. Qed.


(** ** Runs of [main] *)

Lemma main_completed (w : world) (r : report) :
  main w = Completed r ->
  authenticate w = Authenticated
  /\ exists metrics_data top_video,
      fetch_channel_metrics w (start_of w) (end_of w) = Ok metrics_data
      /\ fetch_top_video w (start_of w) (end_of w) = Ok top_video
      /\ assemble w metrics_data
           (fetch_click_through_rate w (start_of w) (end_of w))
           (fetch_traffic_sources w (start_of w) (end_of w))
           top_video
           (fetch_recent_videos w (start_of w) (end_of w)) = Ok r
      /\ print_summary r = Ok tt.
Proof.
  unfold main, start_of, end_of, get_date_range. cbn [fst snd].
  destruct (authenticate w); try discriminate.
  destruct (fetch_channel_metrics w _ _) as [m | x]; try discriminate.
  destruct (fetch_top_video w _ _) as [t | x]; try discriminate.
  destruct (assemble w m _ _ t _) as [r' | x] eqn:A; try discriminate.
  destruct (print_summary r') as [[] | x] eqn:P; try discriminate.
  intros H. injection H as <-.
  split; [reflexivity |]. exists m, t. repeat split; assumption.
Qed.

Lemma main_completes (w : world) (metrics_data : json) (top_video : video_summary)
      (r : report) :
  authenticate w = Authenticated ->
  fetch_channel_metrics w (start_of w) (end_of w) = Ok metrics_data ->
  fetch_top_video w (start_of w) (end_of w) = Ok top_video ->
  assemble w metrics_data
    (fetch_click_through_rate w (start_of w) (end_of w))
    (fetch_traffic_sources w (start_of w) (end_of w))
    top_video
    (fetch_recent_videos w (start_of w) (end_of w)) = Ok r ->
  print_summary r = Ok tt ->
  main w = Completed r.
Proof.
  unfold main, start_of, end_of, get_date_range. cbn [fst snd].
  intros -> -> -> -> ->. reflexivity.
Qed.

(** [assemble] is [channel_totals] followed by the rounding of the rate. *)
Lemma assemble_totals (w : world) (metrics_data ctr : json)
      (sources : list (string * Z)) (top_video : video_summary)
      (launches : list launch) :
  assemble w metrics_data ctr sources top_video launches
  = (t <- channel_totals w metrics_data ;;
     rate <- py_round1 ctr ;;
     Ok (report_of w t rate sources top_video launches)).
Proof.
  unfold assemble, channel_totals, report_of.
  repeat match goal with
         | |- context [bind ?m _] =>
             lazymatch m with
             | bind _ _ => fail
             | _ => destruct m; cbn [bind]; try reflexivity
             end
         end.
Qed.

Lemma assemble_ok (w : world) (metrics_data ctr : json)
      (sources : list (string * Z)) (top_video : video_summary)
      (launches : list launch) (r : report) :
  assemble w metrics_data ctr sources top_video launches = Ok r ->
  exists t rate,
    channel_totals w metrics_data = Ok t
    /\ py_round1 ctr = Ok rate
    /\ r = report_of w t rate sources top_video launches.
Proof.
  rewrite assemble_totals. intros H.
  apply bind_ok in H. destruct H as (t & Ht & H).
  apply bind_ok in H. destruct H as (rate & Hrate & H).
  inv_ok H. now exists t, rate.
Qed.

Lemma channel_totals_ok (w : world) (metrics_data : json) (t : totals) :
  channel_totals w metrics_data = Ok t ->
  exists rows items minutes duration,
    py_get_default metrics_data "rows" (JList []) = Ok rows
    /\ py_iter rows = Ok items
    /\ sum_over (fun row => py_index row 2) items = Ok minutes
    /\ py_truediv minutes (JInt 60) = Ok (t_watch_hours t)
    /\ last_duration rows = Ok duration
    /\ py_int duration = Ok (t_duration t)
    /\ sum_over (fun row => py_index row 4) items = Ok (t_gained t)
    /\ sum_over (fun row => py_index row 5) items = Ok (t_lost t)
    /\ calculate_subscriber_growth_chart w metrics_data = Ok (t_chart t).
Proof.
  unfold channel_totals. intros H.
  apply bind_ok in H. destruct H as (rows & Hrows & H).
  apply bind_ok in H. destruct H as (items & Hitems & H).
  apply bind_ok in H. destruct H as (minutes & Hminutes & H).
  apply bind_ok in H. destruct H as (hours & Hhours & H).
  apply bind_ok in H. destruct H as (duration & Hduration & H).
  apply bind_ok in H. destruct H as (gained & Hgained & H).
  apply bind_ok in H. destruct H as (lost & Hlost & H).
  apply bind_ok in H. destruct H as (ch & Hchart & H).
  apply bind_ok in H. destruct H as (d & Hd & H).
  inv_ok H. exists rows, items, minutes, duration. cbn. tauto.
Qed.

Lemma ctr_rounds (w : world) (start_date end_date : string) :
  exists rate, py_round1 (fetch_click_through_rate w start_date end_date) = Ok rate.
Proof.
  unfold fetch_click_through_rate.
  destruct (click_through_rate_body w start_date end_date) as [[avg |] | x] eqn:B;
    try (eexists; reflexivity).
  unfold click_through_rate_body in B. do 2 inv_bind B.
  destruct (py_truthy v0); [| discriminate].
  do 3 inv_bind B. inv_ok B.
  unfold mean_or_zero in E3. destruct v2.
  - inv_ok E3. eexists; reflexivity.
  - do 2 inv_bind E3. inv_ok E3. eexists; reflexivity.
Qed.

Lemma quot_nonneg_bounds (m d : Z) :
  0 <= m -> 0 < d ->
  0 <= Z.quot m d /\ Z.quot m d * d <= m < (Z.quot m d + 1) * d.
Proof.
  intros Hm Hd. rewrite Z.quot_div_nonneg by assumption.
  pose proof (Z.div_pos m d Hm Hd).
  pose proof (Z.div_mod m d ltac:(lia)).
  pose proof (Z.mod_pos_bound m d Hd). nia.
Qed.

Lemma quot_toward_zero (m d : Z) :
  0 < d ->
  Z.abs (Z.quot m d) * d <= Z.abs m < (Z.abs (Z.quot m d) + 1) * d
  /\ 0 <= Z.quot m d * m.
Proof.
  intros Hd. destruct (Z.le_gt_cases 0 m) as [Hm | Hm].
  - destruct (quot_nonneg_bounds m d Hm Hd) as (Hq & Hb).
    rewrite (Z.abs_eq m), (Z.abs_eq (Z.quot m d)) by assumption. split; [exact Hb | nia].
  - destruct (quot_nonneg_bounds (- m) d ltac:(lia) Hd) as (Hq & Hb).
    rewrite Z.quot_opp_l in Hq, Hb by lia.
    rewrite (Z.abs_neq m), (Z.abs_neq (Z.quot m d)) by lia. split; [exact Hb | nia].
Qed.

(** C10. The [avg_view_duration] written to the report is [int()] of the
    last row's duration cell.  On a float, [int()] drops the fractional
    part, rounding toward zero: with [m * 2^e] the exact value of the float
    and [e < 0], the result [z] has the sign of [m] and
    [|z| <= |m| / 2^-e < |z| + 1]; so 245.7 is reported as 245. *)
Theorem report_duration_is_truncated :
  (forall (w : world) (r : report) (metrics_data : json)
          (init : list json) (last_row : json),
      main w = Completed r ->
      fetch_channel_metrics w (start_of w) (end_of w) = Ok metrics_data ->
      py_get_default metrics_data "rows" (JList []) = Ok (JList (init ++ [last_row])) ->
      exists d, py_index last_row 3 = Ok d /\ py_int d = Ok (avg_view_duration r))
  /\ (forall f, py_int (JFloat f) = Py_float.trunc f)
  /\ (forall f m e z,
         Py_float.decompose f = Some (m, e) -> e < 0 -> Py_float.trunc f = Ok z ->
         Z.abs z * 2 ^ (- e) <= Z.abs m < (Z.abs z + 1) * 2 ^ (- e) /\ 0 <= z * m)
  /\ py_int (JFloat 245.7) = Ok 245.
Proof.
  split; [| split; [| split]].
  - intros w r metrics_data init last_row Hmain Hfetch Hrows.
    apply main_completed in Hmain.
    destruct Hmain as (_ & m & t & Hm & _ & Hasm & _).
    rewrite Hfetch in Hm. inv_ok Hm.
    apply assemble_ok in Hasm. destruct Hasm as (tot & rate & Htot & _ & ->).
    apply channel_totals_ok in Htot.
    destruct Htot as (rows & items & minutes & d & Hr & _ & _ & _ & Hlast & Hint & _).
    rewrite Hrows in Hr. inv_ok Hr.
    exists d. split; [| exact Hint].
    rewrite <- Hlast. symmetry. unfold last_duration.
    rewrite snoc_truthy, last_of_snoc. reflexivity.
  - reflexivity.
  - intros f m e z Hdec He. unfold Py_float.trunc. rewrite Hdec.
    destruct (is_nan f); [discriminate |].
    replace (0 <=? e) with false by (symmetry; apply Z.leb_gt; exact He).
    intros H. inv_ok H. apply quot_toward_zero.
    apply Z.pow_pos_nonneg; lia.
  - vm_compute. reflexivity.
Qed.

(** ** Empty metrics *)

Lemma empty_totals (w : world) (metrics_data : json) :
  py_get_default metrics_data "rows" (JList []) = Ok (JList []) ->
  channel_totals w metrics_data
  = Ok {| t_watch_hours := zero;
          t_duration := 0;
          t_gained := JInt 0;
          t_lost := JInt 0;
          t_chart := {| labels := []; values := [] |} |}.
Proof.
  intros Hrows. unfold channel_totals, calculate_subscriber_growth_chart.
  rewrite Hrows. reflexivity.
Qed.

(** C7. When the channel-metrics table has no rows (an empty [rows] list,
    or no [rows] entry at all), every report the run writes carries
    [total_watch_hours = 0.0], [avg_view_duration = 0] and the chart
    [{labels: [], values: []}]; and the empty table is no error: the run
    completes as soon as the top-video derivation returns a summary with a
    string title. *)
Theorem empty_metrics_report (w : world) (metrics_data : json) :
  fetch_channel_metrics w (start_of w) (end_of w) = Ok metrics_data ->
  py_get_default metrics_data "rows" (JList []) = Ok (JList []) ->
  (forall r,
      main w = Completed r ->
      total_watch_hours r = JFloat zero
      /\ avg_view_duration r = 0
      /\ subscriber_growth_chart r = {| labels := []; values := [] |})
  /\ (forall top_video ttl,
         authenticate w = Authenticated ->
         fetch_top_video w (start_of w) (end_of w) = Ok top_video ->
         vs_title top_video = JStr ttl ->
         exists r, main w = Completed r).
Proof.
  intros Hfetch Hrows. split.
  - intros r Hmain. apply main_completed in Hmain.
    destruct Hmain as (_ & m & t & Hm & _ & Hasm & _).
    rewrite Hfetch in Hm. inv_ok Hm.
    apply assemble_ok in Hasm. destruct Hasm as (tot & rate & Htot & _ & ->).
    rewrite (empty_totals w _ Hrows) in Htot. inv_ok Htot. repeat split.
  - intros top_video ttl Hauth Htop Httl.
    destruct (ctr_rounds w (start_of w) (end_of w)) as (rate & Hrate).
    eexists. eapply main_completes; try eassumption.
    + rewrite assemble_totals, (empty_totals w _ Hrows). cbn [bind].
      rewrite Hrate. reflexivity.
    + unfold print_summary, report_of. cbn. rewrite Httl. reflexivity.
Qed.

(** ** Click-through rate *)

(** In the sample run the click-through-rate query returns three rows and
    the reported rate is 7.7, which is neither the mean of the rate column
    (index 4 of the table, [cardClickRate]) nor the unrounded mean of the
    column the code reads (index 3). *)
Lemma reported_rate_is_not_the_column_mean :
  reports_query Sample.healthy (ctr_query "2024-03-01" "2024-03-31")
  = Ok (Sample.table Sample.ctr_rows)
  /\ nth 4 (columns (ctr_query "2024-03-01" "2024-03-31")) "" = "cardClickRate"
  /\ exists r rate_mean read_mean,
      main Sample.healthy = Completed r
      /\ column_mean 4 Sample.ctr_rows = Ok rate_mean
      /\ column_mean 3 Sample.ctr_rows = Ok read_mean
      /\ click_through_rate r = JFloat 7.7
      /\ (7.7 =? rate_mean)%float = false
      /\ (7.7 =? read_mean)%float = false.
Proof.
  split; [reflexivity | split; [reflexivity |]].
  do 3 eexists. repeat split; vm_compute; reflexivity.
Qed.

Lemma default_ctr_rounds_to_itself : py_round1 DEFAULT_CTR = Ok (JFloat 4.8).
Proof. vm_compute. reflexivity. Qed.

(** In a completed run the [click_through_rate] field is exactly 4.8 when
    the click-through-rate query raises or returns no rows; when it
    returns rows, the field is the average the derivation computes over
    them, rounded to one decimal place. *)
Theorem click_through_rate_field (w : world) (r : report) :
  main w = Completed r ->
  (forall x,
      reports_query w (ctr_query (start_of w) (end_of w)) = Raise x ->
      click_through_rate r = JFloat 4.8)
  /\ (forall response,
         reports_query w (ctr_query (start_of w) (end_of w)) = Ok response ->
         py_get_default response "rows" (JList []) = Ok (JList []) ->
         click_through_rate r = JFloat 4.8)
  /\ (forall response rows vals avg,
         reports_query w (ctr_query (start_of w) (end_of w)) = Ok response ->
         py_get_default response "rows" (JList []) = Ok (JList rows) ->
         rows <> [] ->
         ctr_values rows = Ok vals ->
         mean_or_zero vals = Ok (JFloat avg) ->
         click_through_rate r = JFloat (Py_float.round1 avg)).
Proof.
  intros Hmain. apply main_completed in Hmain.
  destruct Hmain as (_ & m & t & _ & _ & Hasm & _).
  apply assemble_ok in Hasm. destruct Hasm as (tot & rate & _ & Hrate & ->).
  cbn [click_through_rate report_of].
  unfold fetch_click_through_rate, click_through_rate_body in Hrate.
  split; [| split].
  - intros x Hq. rewrite Hq in Hrate. cbn [bind] in Hrate.
    rewrite default_ctr_rounds_to_itself in Hrate. now inv_ok Hrate.
  - intros response Hq Hrows. rewrite Hq in Hrate. cbn [bind] in Hrate.
    rewrite Hrows in Hrate. cbn [bind py_truthy] in Hrate.
    rewrite default_ctr_rounds_to_itself in Hrate. now inv_ok Hrate.
  - intros response rows vals avg Hq Hrows Hne Hvals Hmean.
    rewrite Hq in Hrate. cbn [bind] in Hrate. rewrite Hrows in Hrate.
    cbn [bind] in Hrate.
    replace (py_truthy (JList rows)) with true in Hrate
      by (destruct rows; [contradiction | reflexivity]).
    cbn [py_iter bind] in Hrate. rewrite Hvals in Hrate. cbn [bind] in Hrate.
    rewrite Hmean in Hrate. cbn [bind] in Hrate.
    unfold py_round1 in Hrate. cbn [as_num] in Hrate. now inv_ok Hrate.
Qed.

Lemma ctr_values_read_clicks (rows : list json) :
  Forall ctr_api_row rows ->
  ctr_values rows = Ok (map (fun row => JInt (cell_int 3 row)) rows).
Proof.
  unfold ctr_values.
  induction 1 as [| row rows (d & v & imp & clicks & rate & ->) _ IH]; [reflexivity |].
  cbn [mapM map]. rewrite IH. reflexivity.
Qed.

Lemma sum_of_ints (f : json -> Z) (rows : list json) :
  forall acc,
    foldM py_add (map (fun row => JInt (f row)) rows) (JInt acc)
    = Ok (JInt (fold_left Z.add (map f rows) acc)).
Proof.
  induction rows as [| row rows IH]; intros acc; [reflexivity |].
  cbn [map foldM fold_left py_add as_num bind]. apply IH.
Qed.

(** C5. The code does not do what the claim, and its own comment
    ([Use cardClickRate if available]), say.  The table of the
    click-through-rate query has the columns day, views, cardImpressions,
    cardClicks, cardClickRate, and the derivation averages the cell at
    index 3: for well-formed rows it returns the mean of the card clicks,
    not of the rate at index 4.  With one row of 7 clicks and a rate of
    3.5 the report says 7.0, while the mean of the rate column is 3.5,
    also after rounding to one decimal. *)
Theorem rate_averages_the_clicks_column :
  (forall start_date end_date,
      columns (ctr_query start_date end_date)
      = ["day"; "views"; "cardImpressions"; "cardClicks"; "cardClickRate"])
  /\ (forall w start_date end_date response rows mean_clicks,
         reports_query w (ctr_query start_date end_date) = Ok response ->
         py_get_default response "rows" (JList []) = Ok (JList rows) ->
         rows <> [] ->
         Forall ctr_api_row rows ->
         Py_float.int_true_div (column_total 3 rows) (Z.of_nat (List.length rows))
         = Ok mean_clicks ->
         fetch_click_through_rate w start_date end_date = JFloat mean_clicks)
  /\ reports_query Cases.clicks_and_rate (ctr_query "2024-03-01" "2024-03-31")
     = Ok (Sample.table
             [JList [JStr "2024-03-01"; JInt 120; JInt 200; JInt 7; JFloat 3.5]])
  /\ column_mean 4 Cases.clicks_and_rate_rows = Ok 3.5%float
  /\ py_round1 (JFloat 3.5) = Ok (JFloat 3.5)
  /\ fetch_click_through_rate Cases.clicks_and_rate "2024-03-01" "2024-03-31"
     = JFloat 7
  /\ (exists r,
         main Cases.clicks_and_rate = Completed r
         /\ click_through_rate r = JFloat 7)
  /\ (7 =? 3.5)%float = false.
Proof.
  split; [reflexivity |]. split.
  - intros w start_date end_date response rows mean_clicks Hq Hrows Hne Hall Hmean.
    unfold fetch_click_through_rate, click_through_rate_body.
    rewrite Hq. cbn [bind]. rewrite Hrows. cbn [bind].
    replace (py_truthy (JList rows)) with true
      by (destruct rows; [contradiction | reflexivity]).
    cbn [py_iter bind]. rewrite (ctr_values_read_clicks rows Hall). cbn [bind].
    unfold mean_or_zero, py_sum, column_total in *.
    destruct rows as [| row rows']; [contradiction |].
    change (map (fun row0 => JInt (cell_int 3 row0)) (row :: rows'))
      with (JInt (cell_int 3 row) :: map (fun row0 => JInt (cell_int 3 row0)) rows').
    change (JInt (cell_int 3 row) :: map (fun row0 => JInt (cell_int 3 row0)) rows')
      with (map (fun row0 => JInt (cell_int 3 row0)) (row :: rows')).
    rewrite sum_of_ints. cbn [bind py_truediv as_num].
    rewrite length_map, Hmean. reflexivity.
  - repeat split; try (vm_compute; reflexivity).
    eexists. split; vm_compute; reflexivity.
Qed.

Lemma rate_averages_the_clicks_column_witness :
  fetch_click_through_rate Sample.healthy "2024-03-01" "2024-03-31"
  = JFloat (23 / 3)
  /\ column_total 3 Sample.ctr_rows = 23.
Proof.
  split; [| reflexivity].
  apply (proj1 (proj2 rate_averages_the_clicks_column)
           Sample.healthy "2024-03-01" "2024-03-31"
           (Sample.table Sample.ctr_rows) Sample.ctr_rows).
  - reflexivity.
  - reflexivity.
  - discriminate.
  - repeat (constructor; [do 5 eexists; reflexivity |]). constructor.
  - vm_compute. reflexivity.
Defined.

(** ** Top video *)

Lemma py_index_nth (l : list json) (i : nat) (x : json) :
  nth_error l i = Some x -> py_index (JList l) (Z.of_nat i) = Ok x.
Proof.
  intros H. assert (i < List.length l)%nat as Hlt
      by (apply nth_error_Some; rewrite H; discriminate).
  unfold py_index, norm_index.
  replace (Z.of_nat i <? 0) with false by (symmetry; apply Z.ltb_ge; lia).
  replace (0 <=? Z.of_nat i) with true by (symmetry; apply Z.leb_le; lia).
  replace (Z.of_nat i <? Z.of_nat (List.length l)) with true
    by (symmetry; apply Z.ltb_lt; lia).
  cbn [andb]. rewrite Nat2Z.id, H. reflexivity.
Qed.

Lemma py_index_0 (x : json) (l : list json) :
  py_index (JList (x :: l)) 0 = Ok x.
Proof. exact (py_index_nth (x :: l) 0 x eq_refl). Qed.

Lemma py_index_1 (x y : json) (l : list json) :
  py_index (JList (x :: y :: l)) 1 = Ok y.
Proof. exact (py_index_nth (x :: y :: l) 1 y eq_refl). Qed.

Lemma py_index_2 (x y z : json) (l : list json) :
  py_index (JList (x :: y :: z :: l)) 2 = Ok z.
Proof. exact (py_index_nth (x :: y :: z :: l) 2 z eq_refl). Qed.

Lemma cell_or_zero_list (l : list json) (i : nat) :
  exists v, cell_or_zero (JList l) (Z.of_nat i) = Ok v.
Proof.
  unfold cell_or_zero. cbn [py_len bind].
  destruct (Z.of_nat i <? Z.of_nat (List.length l)) eqn:C.
  - apply Z.ltb_lt in C.
    destruct (nth_error l i) as [x |] eqn:N.
    + exists x. apply py_index_nth, N.
    + apply nth_error_None in N. lia.
  - eexists; reflexivity.
Qed.

(** C8. When the top-video query returns no rows, [fetch_top_video]
    returns the record [{title: "No videos in this period", views: 0,
    watch_hours: 0, likes: 0}]; and when the query returns a row and the
    title lookup raises, for whatever reason, the title is ["Video "]
    followed by the first ten characters of the video identifier. *)
Theorem top_video_placeholders :
  (forall w start_date end_date response,
      reports_query w (top_video_query start_date end_date) = Ok response ->
      py_get_default response "rows" (JList []) = Ok (JList []) ->
      fetch_top_video w start_date end_date
      = Ok {| vs_title := JStr "No videos in this period";
              vs_views := JInt 0;
              vs_watch_hours := JInt 0;
              vs_likes := JInt 0 |})
  /\ (forall w start_date end_date response vid nviews minutes rest more x hours,
         reports_query w (top_video_query start_date end_date) = Ok response ->
         py_get_default response "rows" (JList [])
         = Ok (JList (JList (JStr vid :: nviews :: minutes :: rest) :: more)) ->
         title_lookup w (JStr vid) = Raise x ->
         py_truediv minutes (JInt 60) = Ok hours ->
         exists nlikes,
           fetch_top_video w start_date end_date
           = Ok {| vs_title := JStr ("Video " ++ Py_str.take 10 vid);
                   vs_views := nviews;
                   vs_watch_hours := JFloat (Py_float.round1 hours);
                   vs_likes := nlikes |}).
Proof.
  split.
  - intros w start_date end_date response Hq Hrows.
    unfold fetch_top_video. rewrite Hq. cbn [bind]. rewrite Hrows. reflexivity.
  - intros w start_date end_date response vid nviews minutes rest more x hours
           Hq Hrows Hlookup Hhours.
    destruct (cell_or_zero_list (JStr vid :: nviews :: minutes :: rest) 3)
      as (nlikes & Hlikes).
    exists nlikes.
    unfold fetch_top_video. rewrite Hq. cbn [bind]. rewrite Hrows.
    cbn [bind py_truthy negb].
    rewrite py_index_0. cbn [bind].
    rewrite py_index_0, py_index_1, py_index_2. cbn [bind].
    change 3 with (Z.of_nat 3). rewrite Hlikes. cbn [bind].
    unfold video_title. rewrite Hlookup. cbn [py_take bind py_add as_num].
    rewrite Hhours. reflexivity.
Qed.

(** ** Recent launches *)

Lemma insert_by_sorted {A : Type} (key : A -> string) (x : A) (l : list A) :
  Sorted (fun a b => String.leb (key a) (key b) = true) l ->
  Sorted (fun a b => String.leb (key a) (key b) = true) (insert_by key x l).
Proof.
  induction l as [| y l IH]; intros Hs; simpl.
  - repeat constructor.
  - destruct (String.leb (key x) (key y)) eqn:C.
    + constructor; [exact Hs | constructor; exact C].
    + inversion Hs as [| ? ? Hl Hhd]; subst.
      constructor; [apply IH, Hl |].
      destruct (String.leb_total (key x) (key y)) as [Hxy | Hyx];
        [congruence |].
      destruct l as [| z l]; simpl.
      * constructor. exact Hyx.
      * destruct (String.leb (key x) (key z)); constructor;
          [exact Hyx | inversion Hhd; assumption].
Qed.

Lemma sort_by_sorted {A : Type} (key : A -> string) (l : list A) :
  Sorted (fun a b => String.leb (key a) (key b) = true) (sort_by key l).
Proof.
  induction l as [| x l IH]; simpl; [constructor | apply insert_by_sorted, IH].
Qed.

Lemma insert_by_perm {A : Type} (key : A -> string) (x : A) (l : list A) :
  Permutation (x :: l) (insert_by key x l).
Proof.
  induction l as [| y l IH]; simpl; [reflexivity |].
  destruct (String.leb (key x) (key y)); [reflexivity |].
  rewrite perm_swap. constructor. exact IH.
Qed.

(** Sorting keeps the launches: the result is a rearrangement of them. *)
Lemma sort_by_perm {A : Type} (key : A -> string) (l : list A) :
  Permutation l (sort_by key l).
Proof.
  induction l as [| x l IH]; simpl; [constructor |].
  rewrite <- insert_by_perm. constructor. exact IH.
Qed.

(** C9. Whatever the search and statistics queries return, and in whatever
    order, the list [fetch_recent_videos] returns is sorted ascending by
    [full_date]; when the derivation runs through, the list is a
    rearrangement of the launches it collected; and when anything in the
    derivation raises, the list is empty. *)
Theorem recent_videos_sorted (w : world) (start_date end_date : string) :
  Sorted by_full_date (fetch_recent_videos w start_date end_date)
  /\ (forall l,
         recent_videos_body w start_date end_date = Ok l ->
         exists items collected,
           foldM (add_launch w) items [] = Ok collected
           /\ Permutation collected l
           /\ fetch_recent_videos w start_date end_date = l)
  /\ (forall x,
         recent_videos_body w start_date end_date = Raise x ->
         fetch_recent_videos w start_date end_date = []).
Proof.
  unfold fetch_recent_videos, try_except. split; [| split].
  - destruct (recent_videos_body w start_date end_date) as [l | x] eqn:B.
    + unfold recent_videos_body in B.
      repeat (apply bind_ok in B; destruct B as (? & _ & B)).
      inv_ok B. apply sort_by_sorted.
    + constructor.
  - intros l B. rewrite B. unfold recent_videos_body in B.
    apply bind_ok in B. destruct B as (start_datetime & _ & B).
    apply bind_ok in B. destruct B as (search_response & _ & B).
    apply bind_ok in B. destruct B as (found & _ & B).
    apply bind_ok in B. destruct B as (items & _ & B).
    apply bind_ok in B. destruct B as (collected & Hcollected & B).
    inv_ok B. exists items, collected.
    split; [exact Hcollected | split; [apply sort_by_perm | reflexivity]].
  - intros x ->. reflexivity.
Qed.

(** ** Chart downsampling *)

Lemma every_nth_length {A : Type} (k : nat) (l : list A) :
  (1 <= k)%nat ->
  forall skip,
    List.length (every_nth skip k l)
    = if (List.length l <=? skip)%nat then O
      else ((List.length l - skip - 1) / k + 1)%nat.
Proof.
  intros Hk. induction l as [| x l IH]; intros skip; [reflexivity |].
  destruct skip as [| j]; cbn [every_nth List.length].
  - rewrite IH. cbn [Nat.leb].
    replace (S (List.length l) - 0 - 1)%nat with (List.length l) by lia.
    destruct (List.length l <=? k - 1)%nat eqn:C.
    + apply Nat.leb_le in C. rewrite Nat.div_small by lia. reflexivity.
    + apply Nat.leb_gt in C.
      replace (List.length l) with ((List.length l - k) + 1 * k)%nat at 2 by lia.
      rewrite Nat.div_add by lia.
      replace (List.length l - (k - 1) - 1)%nat with (List.length l - k)%nat by lia.
      lia.
  - rewrite IH. reflexivity.
Qed.

Lemma every_nth_nth {A : Type} (k : nat) (l : list A) :
  (1 <= k)%nat ->
  forall skip i,
    nth_error (every_nth skip k l) i = nth_error l (skip + i * k)%nat.
Proof.
  intros Hk. induction l as [| x l IH]; intros skip i.
  - cbn [every_nth]. destruct i, (skip + _)%nat; reflexivity.
  - destruct skip as [| j]; cbn [every_nth].
    + destruct i as [| i]; [reflexivity |].
      cbn [nth_error]. rewrite IH.
      replace (0 + S i * k)%nat with (S (k - 1 + i * k)) by lia. reflexivity.
    + rewrite IH. reflexivity.
Qed.

Lemma every_nth_incl {A : Type} (k : nat) (l : list A) :
  forall skip x, In x (every_nth skip k l) -> In x l.
Proof.
  induction l as [| y l IH]; intros skip x; [intros [] |].
  destruct skip as [| j]; cbn [every_nth].
  - intros [-> | H]; [left; reflexivity | right; eapply IH, H].
  - intros H. right. eapply IH, H.
Qed.

Lemma chart_points_length (w : world) (items : list json) :
  forall c c',
    foldM (chart_point w) items c = Ok c' ->
    List.length (labels c') = (List.length (labels c) + List.length items)%nat
    /\ List.length (values c') = (List.length (values c) + List.length items)%nat.
Proof.
  induction items as [| row items IH]; intros c c' H; cbn [foldM] in H.
  - inv_ok H. cbn [List.length]. lia.
  - apply bind_ok in H. destruct H as (c1 & Hpoint & H).
    apply IH in H. destruct H as (Hl & Hv).
    unfold chart_point in Hpoint.
    repeat (apply bind_ok in Hpoint; destruct Hpoint as (? & _ & Hpoint)).
    inv_ok Hpoint. cbn [labels values List.length] in Hl, Hv.
    rewrite length_app in Hl, Hv. cbn [List.length] in *. lia.
Qed.

Lemma chart_points_ok (w : world) (items : list json) :
  Forall (api_day_row w) items ->
  forall c, exists c', foldM (chart_point w) items c = Ok c'.
Proof.
  induction 1 as [| row items Hrow _ IH]; intros c; cbn [foldM].
  - eexists; reflexivity.
  - destruct Hrow as (d & v & m & dur & g & l & dt & -> & Hdate).
    unfold chart_point.
    rewrite py_index_0. cbn [bind].
    replace (cell_or_zero (JList [JStr d; JInt v; JInt m; JInt dur; JInt g; JInt l]) 4)
      with (Ok (JInt g)) by reflexivity.
    replace (cell_or_zero (JList [JStr d; JInt v; JInt m; JInt dur; JInt g; JInt l]) 5)
      with (Ok (JInt l)) by reflexivity.
    cbn [bind py_sub as_num py_strptime]. rewrite Hdate. cbn [bind]. apply IH.
Qed.

Lemma chart_points_of_api_rows (w : world) (items : list json) :
  Forall (api_day_row w) items ->
  forall c,
    foldM (chart_point w) items c
    = Ok {| labels := (labels c ++ map (label_of w) items)%list;
            values := (values c ++ map net_growth_of items)%list |}.
Proof.
  induction 1 as [| row items Hrow _ IH]; intros c; cbn [foldM map].
  - rewrite !app_nil_r. destruct c; reflexivity.
  - destruct Hrow as (d & v & m & dur & g & l & dt & -> & Hdate).
    unfold chart_point.
    rewrite py_index_0. cbn [bind].
    replace (cell_or_zero (JList [JStr d; JInt v; JInt m; JInt dur; JInt g; JInt l]) 4)
      with (Ok (JInt g)) by reflexivity.
    replace (cell_or_zero (JList [JStr d; JInt v; JInt m; JInt dur; JInt g; JInt l]) 5)
      with (Ok (JInt l)) by reflexivity.
    cbn [bind py_sub as_num py_strptime]. rewrite Hdate. cbn [bind].
    rewrite IH. cbn [labels values label_of]. rewrite Hdate.
    unfold net_growth_of. cbn [cell_int nth_error].
    rewrite <- !app_assoc. reflexivity.
Qed.

(** C6. The chart takes every Nth row of the daily series with
    [N = max(1, row_count // 6)]: N is 5 for 30 rows and 1 for 3 rows.  For
    a table of well-formed daily rows the chart is produced, and its i-th
    label and value are the formatted date and the net growth of row
    [i * N] of the series, with nothing after the last such row: 6 points
    for 30 rows (rows 0, 5, 10, 15, 20 and 25), all 3 points for 3
    rows. *)
Theorem chart_downsampling :
  (forall n, chart_step n = Z.max 1 (n / 6))
  /\ chart_step 30 = 5
  /\ chart_step 3 = 1
  /\ (forall (rows : list json) (n i : nat),
         (1 <= n)%nat ->
         nth_error (every_nth 0 n rows) i = nth_error rows (i * n)%nat)
  /\ (forall (rows : list json), every_nth 0 1 rows = rows)
  /\ (forall w metrics_data rows,
         py_get_default metrics_data "rows" (JList []) = Ok (JList rows) ->
         Forall (api_day_row w) rows ->
         exists c,
           calculate_subscriber_growth_chart w metrics_data = Ok c
           /\ List.length (labels c)
              = List.length
                  (every_nth 0 (Z.to_nat (chart_step (Z.of_nat (List.length rows)))) rows)
           /\ List.length (values c) = List.length (labels c)
           /\ (List.length rows = 30%nat -> List.length (labels c) = 6%nat)
           /\ (List.length rows = 3%nat -> List.length (labels c) = 3%nat)
           /\ (forall i,
                  nth_error (labels c) i
                  = option_map (label_of w)
                      (nth_error rows
                         (i * Z.to_nat (chart_step (Z.of_nat (List.length rows))))%nat))
           /\ (forall i,
                  nth_error (values c) i
                  = option_map net_growth_of
                      (nth_error rows
                         (i * Z.to_nat (chart_step (Z.of_nat (List.length rows))))%nat))
           /\ (List.length rows = 30%nat ->
               forall i,
                 nth_error (labels c) i
                 = option_map (label_of w) (nth_error rows (i * 5)%nat)
                 /\ nth_error (values c) i
                    = option_map net_growth_of (nth_error rows (i * 5)%nat))
           /\ (List.length rows = 3%nat ->
               labels c = map (label_of w) rows
               /\ values c = map net_growth_of rows)).
Proof.
  split; [reflexivity | split; [reflexivity | split; [reflexivity |]]].
  split; [| split].
  - intros rows n i Hn. apply every_nth_nth, Hn.
  - induction rows as [| x rows IH]; cbn [every_nth Nat.sub]; [| rewrite IH]; reflexivity.
  - intros w metrics_data rows Hrows Hall.
    set (step := Z.to_nat (chart_step (Z.of_nat (List.length rows)))).
    assert (Hstep : (1 <= step)%nat) by (unfold step, chart_step; lia).
    assert (Hsel : Forall (api_day_row w) (every_nth 0 step rows)).
    { rewrite Forall_forall in *. intros x Hx. eapply Hall, every_nth_incl, Hx. }
    pose proof (chart_points_of_api_rows w _ Hsel {| labels := []; values := [] |})
      as Hc.
    cbn [labels values app] in Hc.
    set (c := {| labels := map (label_of w) (every_nth 0 step rows);
                 values := map net_growth_of (every_nth 0 step rows) |}) in *.
    assert (Hrun : calculate_subscriber_growth_chart w metrics_data = Ok c).
    { unfold calculate_subscriber_growth_chart. rewrite Hrows. cbn [bind].
      destruct rows as [| row rows'].
      - reflexivity.
      - cbn [py_truthy negb py_len bind].
        unfold py_stride. fold step.
        replace (chart_step (Z.of_nat (List.length (row :: rows'))) =? 0) with false
          by (symmetry; apply Z.eqb_neq; unfold chart_step; lia).
        cbn [bind py_iter]. exact Hc. }
    assert (Hlabel : forall i,
               nth_error (labels c) i
               = option_map (label_of w) (nth_error rows (i * step)%nat)).
    { intros i. unfold c. cbn [labels].
      rewrite nth_error_map, every_nth_nth by exact Hstep. reflexivity. }
    assert (Hvalue : forall i,
               nth_error (values c) i
               = option_map net_growth_of (nth_error rows (i * step)%nat)).
    { intros i. unfold c. cbn [values].
      rewrite nth_error_map, every_nth_nth by exact Hstep. reflexivity. }
    exists c. split; [exact Hrun |].
    split; [unfold c; cbn [labels]; apply length_map |].
    split; [unfold c; cbn [labels values]; rewrite !length_map; reflexivity |].
    split.
    { intros H30. unfold c. cbn [labels].
      rewrite length_map, every_nth_length by exact Hstep.
      unfold step. rewrite H30. reflexivity. }
    split.
    { intros H3. unfold c. cbn [labels].
      rewrite length_map, every_nth_length by exact Hstep.
      unfold step. rewrite H3. reflexivity. }
    split; [exact Hlabel |]. split; [exact Hvalue |]. split.
    { intros H30 i.
      assert (Hfive : step = 5%nat) by (unfold step; rewrite H30; reflexivity).
      rewrite <- Hfive. split; [apply Hlabel | apply Hvalue]. }
    intros H3.
    assert (Hone : step = 1%nat) by (unfold step; rewrite H3; reflexivity).
    unfold c. cbn [labels values]. rewrite Hone.
    assert (Hall_rows : every_nth 0 1 rows = rows).
    { clear. induction rows as [| x rows IH]; cbn [every_nth Nat.sub];
        [| rewrite IH]; reflexivity. }
    rewrite Hall_rows. split; reflexivity.
Qed.

(** ** Which failures a run survives *)



(** ** Worked instances *)


Lemma click_through_rate_field_witness :
  (exists r, main Sample.degraded = Completed r
             /\ click_through_rate r = JFloat 4.8)
  /\ (exists r, main Sample.healthy = Completed r
                /\ click_through_rate r = JFloat 7.7).
Proof.
  split.
  - eexists. split; [vm_compute; reflexivity |].
    refine (proj1 (click_through_rate_field Sample.degraded _ _) HttpError _);
      vm_compute; reflexivity.
  - eexists. split; [vm_compute; reflexivity |].
    refine (eq_trans
              (proj2 (proj2 (click_through_rate_field Sample.healthy _ _))
                     (Sample.table Sample.ctr_rows) Sample.ctr_rows
                     [JInt 7; JInt 8; JInt 8] _ _ _ _ _ _) _).
    + vm_compute. reflexivity.
    + reflexivity.
    + reflexivity.
    + discriminate.
    + reflexivity.
    + vm_compute. reflexivity.
    + vm_compute. reflexivity.
Defined.

Lemma chart_downsampling_witness :
  exists c,
    calculate_subscriber_growth_chart Sample.healthy (Sample.table Sample.thirty_rows)
    = Ok c
    /\ List.length (labels c) = 6%nat
    /\ List.length (values c) = 6%nat
    /\ labels c = ["Mar 01"; "Mar 06"; "Mar 11"; "Mar 16"; "Mar 21"; "Mar 26"]
    /\ values c = [JInt 0; JInt 5; JInt 10; JInt 15; JInt 20; JInt 25]
    /\ nth_error (labels c) 2
       = option_map (label_of Sample.healthy) (nth_error Sample.thirty_rows 10).
Proof.
  destruct chart_downsampling as (_ & _ & _ & _ & _ & H).
  destruct (H Sample.healthy (Sample.table Sample.thirty_rows) Sample.thirty_rows)
    as (c & Hc & _ & Hv & H30 & _ & _ & _ & Hfive & _).
  - reflexivity.
  - repeat (constructor;
            [do 7 eexists; split; [reflexivity | vm_compute; reflexivity] |]).
    constructor.
  - exists c. split; [exact Hc |].
    split; [apply H30; reflexivity |].
    split; [rewrite Hv; apply H30; reflexivity |].
    assert (Hrun : calculate_subscriber_growth_chart Sample.healthy
                     (Sample.table Sample.thirty_rows)
                   = Ok {| labels := ["Mar 01"; "Mar 06"; "Mar 11";
                                      "Mar 16"; "Mar 21"; "Mar 26"];
                           values := [JInt 0; JInt 5; JInt 10;
                                      JInt 15; JInt 20; JInt 25] |})
      by (vm_compute; reflexivity).
    rewrite Hc in Hrun. injection Hrun as ->.
    split; [reflexivity | split; [reflexivity |]].
    exact (proj1 (Hfive eq_refl 2%nat)).
Defined.

Lemma empty_metrics_report_witness :
  exists r,
    main Sample.empty_metrics = Completed r
    /\ total_watch_hours r = JFloat zero
    /\ avg_view_duration r = 0
    /\ subscriber_growth_chart r = {| labels := []; values := [] |}.
Proof.
  destruct (empty_metrics_report Sample.empty_metrics (Sample.table []))
    as (Hfields & Hruns).
  - vm_compute. reflexivity.
  - reflexivity.
  - edestruct Hruns as (r & Hmain).
    + reflexivity.
    + vm_compute. reflexivity.
    + reflexivity.
    + exists r. split; [exact Hmain | exact (Hfields r Hmain)].
Defined.

Lemma top_video_placeholders_witness :
  fetch_top_video Sample.no_videos "2024-03-01" "2024-03-31"
  = Ok {| vs_title := JStr "No videos in this period";
          vs_views := JInt 0;
          vs_watch_hours := JInt 0;
          vs_likes := JInt 0 |}
  /\ exists nlikes,
      fetch_top_video Sample.degraded "2024-03-01" "2024-03-31"
      = Ok {| vs_title := JStr "Video dQw4w9WgXc";
              vs_views := JInt 5000;
              vs_watch_hours := JFloat (Py_float.round1 (1234 / 60));
              vs_likes := nlikes |}.
Proof.
  split.
  - eapply (proj1 top_video_placeholders); reflexivity.
  - eapply (proj2 top_video_placeholders Sample.degraded _ _ _
              "dQw4w9WgXcQ_extra" (JInt 5000) (JInt 1234) [JInt 77] [] HttpError).
    + vm_compute. reflexivity.
    + vm_compute. reflexivity.
    + vm_compute. reflexivity.
    + vm_compute. reflexivity.
Defined.

Lemma recent_videos_sorted_witness :
  Sorted by_full_date (fetch_recent_videos Sample.healthy "2024-03-01" "2024-03-31")
  /\ map full_date (fetch_recent_videos Sample.healthy "2024-03-01" "2024-03-31")
     = ["2024-03-02"; "2024-03-11"; "2024-03-20"]
  /\ fetch_recent_videos Sample.degraded "2024-03-01" "2024-03-31" = [].
Proof.
  split; [| split].
  - exact (proj1 (recent_videos_sorted Sample.healthy "2024-03-01" "2024-03-31")).
  - vm_compute. reflexivity.
  - apply (proj2 (proj2 (recent_videos_sorted Sample.degraded
                           "2024-03-01" "2024-03-31")) HttpError).
    vm_compute. reflexivity.
Defined.

Lemma report_duration_is_truncated_witness :
  exists r,
    main (Sample.with_metrics Sample.healthy (Sample.table Sample.fractional_rows))
    = Completed r
    /\ exists d,
        py_index (JList [JStr "2024-03-02"; JInt 150; JInt 720; JFloat 245.7;
                         JInt 7; JInt 2]) 3 = Ok d
        /\ py_int d = Ok (avg_view_duration r)
        /\ avg_view_duration r = 245.
Proof.
  eexists. split; [vm_compute; reflexivity |].
  destruct (proj1 report_duration_is_truncated
              (Sample.with_metrics Sample.healthy (Sample.table Sample.fractional_rows))
              _ (Sample.table Sample.fractional_rows)
              [Sample.day_row "2024-03-01" 120 600 100 5 1]
              (JList [JStr "2024-03-02"; JInt 150; JInt 720; JFloat 245.7;
                      JInt 7; JInt 2])
              eq_refl eq_refl eq_refl) as (d & Hd & Hint).
  exists d. repeat split; assumption || reflexivity.
Defined.

Lemma adjustment_raises_largest_bucket_witness :
  fetch_traffic_sources Sample.healthy "2024-03-01" "2024-03-31"
  = [("search", 42); ("browse", 31); ("external", 19); ("other", 8)].
Proof.
  destruct adjustment_raises_largest_bucket as (_ & _ & _ & _ & H & _).
  eapply (H Sample.healthy "2024-03-01" "2024-03-31"
            (Sample.table Sample.traffic_rows) (JList Sample.traffic_rows)
            Sample.traffic_rows (JInt 1000)).
  - reflexivity.
  - reflexivity.
  - reflexivity.
  - reflexivity.
  - vm_compute. reflexivity.
  - vm_compute. reflexivity.
Defined.

(** * Further properties *)

(** ** Authentication *)

Lemma authenticate_stored (w : world) :
  authenticate w
  = match stored_token w with
    | Some c =>
        if valid c then Authenticated
        else if expired c && refresh_token c then lift_auth (refresh w)
        else if negb (credentials_file_exists w) then SystemExit 1
        else lift_auth (run_local_server w)
    | None =>
        if negb (credentials_file_exists w) then SystemExit 1
        else lift_auth (run_local_server w)
    end.
Proof. reflexivity. Qed.

(** Past authentication no branch of [main] ends in [Exited]. *)
Ltac no_exit_after_login :=
  repeat match goal with
         | |- context [match ?m with _ => _ end] =>
             destruct m; try discriminate
         end.

(** X1. A run ends by [exit] exactly when the client-secret file is
    missing and there is no usable stored token (none at all, or one that
    is neither valid nor refreshable); the status is then 1, whatever the
    services would have answered. *)
Theorem exit_only_without_configuration (w : world) (code : Z) :
  main w = Exited code
  <-> code = 1
      /\ credentials_file_exists w = false
      /\ (forall c, stored_token w = Some c -> usable c = false).
Proof.
  unfold main. rewrite authenticate_stored. unfold usable. split.
  - destruct (stored_token w) as [c |] eqn:S.
    + destruct (valid c) eqn:V.
      { cbn. no_exit_after_login. }
      destruct (expired c && refresh_token c) eqn:R.
      { destruct (refresh w); cbn; [| discriminate].
        no_exit_after_login. }
      destruct (credentials_file_exists w) eqn:F; cbn.
      { destruct (run_local_server w); cbn; [| discriminate].
        no_exit_after_login. }
      intros H. injection H as <-. repeat split.
      intros c' Hc'. injection Hc' as <-. rewrite V, R. reflexivity.
    + destruct (credentials_file_exists w) eqn:F; cbn.
      { destruct (run_local_server w); cbn; [| discriminate].
        no_exit_after_login. }
      intros H. injection H as <-. repeat split. discriminate.
  - intros (-> & F & U). rewrite F.
    destruct (stored_token w) as [c |]; [| reflexivity].
    specialize (U c eq_refl). apply orb_false_iff in U. destruct U as (-> & ->).
    reflexivity.
Qed.

Lemma exit_only_without_configuration_witness :
  main Cases.unconfigured = Exited 1.
Proof.
  apply (proj2 (exit_only_without_configuration Cases.unconfigured 1)).
  repeat split. discriminate.
Defined.

(** X2. With an expired stored token that has a refresh token, the run
    stands or falls with the refresh: when it raises, the exception ends
    the run before any query, even though the client-secret file for the
    interactive flow is there. *)
Theorem failed_refresh_aborts (w : world) (c : credentials) (x : exn) :
  stored_token w = Some c ->
  valid c = false ->
  expired c = true ->
  refresh_token c = true ->
  refresh w = Raise x ->
  main w = Aborted None x.
Proof.
  intros S V E T R. unfold main. rewrite authenticate_stored, S, V, E, T, R.
  reflexivity.
Qed.

Lemma failed_refresh_aborts_witness :
  credentials_file_exists Cases.refresh_fails = true
  /\ main Cases.refresh_fails = Aborted None HttpError.
Proof.
  split; [reflexivity |].
  eapply (failed_refresh_aborts Cases.refresh_fails); reflexivity.
Defined.

(** ** Click-through rate, continued *)

Lemma mapM_length {A B : Type} (f : A -> result B) (l : list A) :
  forall l', mapM f l = Ok l' -> List.length l' = List.length l.
Proof.
  induction l as [| x l IH]; cbn [mapM]; intros l' H.
  - inv_ok H. reflexivity.
  - apply bind_ok in H. destruct H as (y & _ & H).
    apply bind_ok in H. destruct H as (ys & Hys & H).
    inv_ok H. cbn [List.length]. f_equal. apply IH, Hys.
Qed.

Lemma truthy_iter_nonempty (rows : json) (items : list json) :
  py_truthy rows = true -> py_iter rows = Ok items -> items <> [].
Proof.
  destruct rows as [| b | z | f | s | l | d]; cbn; try discriminate.
  - destruct s; [discriminate |]. intros _ H. inv_ok H. discriminate.
  - destruct l; [discriminate |]. intros _ H. inv_ok H. discriminate.
  - destruct d; [discriminate |]. intros _ H. inv_ok H. discriminate.
Qed.

Lemma ctr_float (w : world) (start_date end_date : string) :
  exists f, fetch_click_through_rate w start_date end_date = JFloat f.
Proof.
  unfold fetch_click_through_rate.
  destruct (click_through_rate_body w start_date end_date) as [[avg |] | x] eqn:B;
    try (eexists; reflexivity).
  unfold click_through_rate_body in B.
  apply bind_ok in B. destruct B as (response & _ & B).
  apply bind_ok in B. destruct B as (rows & _ & B).
  destruct (py_truthy rows) eqn:T; [| discriminate].
  apply bind_ok in B. destruct B as (items & Hitems & B).
  apply bind_ok in B. destruct B as (vals & Hvals & B).
  apply bind_ok in B. destruct B as (avg' & Havg & B). inv_ok B.
  pose proof (truthy_iter_nonempty _ _ T Hitems) as Hne.
  apply mapM_length in Hvals.
  unfold mean_or_zero in Havg.
  destruct vals as [| v vals]; [destruct items; [contradiction | discriminate] |].
  apply bind_ok in Havg. destruct Havg as (total & _ & Havg).
  apply bind_ok in Havg. destruct Havg as (q & _ & Havg).
  inv_ok Havg. eexists; reflexivity.
Qed.

(** X3. [fetch_click_through_rate] always returns a float: the fallback
    4.8, or a quotient.  The alternative [else 0] of the average is never
    taken, because the average is only computed for a non-empty table. *)
Theorem click_through_rate_is_float (w : world) (start_date end_date : string) :
  exists f, fetch_click_through_rate w start_date end_date = JFloat f.
Proof. exact (ctr_float w start_date end_date). Qed.

Lemma int_true_div_zero (n : Z) :
  0 < n -> Py_float.int_true_div 0 n = Ok zero.
Proof.
  intros Hn. unfold Py_float.int_true_div.
  replace (n =? 0) with false by (symmetry; apply Z.eqb_neq; lia).
  replace (n <? 0) with false by (symmetry; apply Z.ltb_ge; lia).
  cbn [Z.abs Z.ltb Z.compare Bool.eqb negb].
  rewrite Z.mul_0_l, Zdiv_0_l, Zmod_0_l.
  reflexivity.
Qed.

Lemma short_rows_read_zero (rows : list json) :
  Forall (fun row => exists l, row = JList l /\ (List.length l <= 3)%nat) rows ->
  ctr_values rows = Ok (repeat (JInt 0) (List.length rows)).
Proof.
  unfold ctr_values. induction 1 as [| row rows (l & -> & Hl) _ IH]; [reflexivity |].
  cbn [mapM List.length repeat]. rewrite IH.
  unfold cell_or_zero. cbn [py_len bind].
  replace (3 <? Z.of_nat (List.length l)) with false
    by (symmetry; apply Z.ltb_ge; lia).
  reflexivity.
Qed.

Lemma sum_of_zeros (n : nat) (acc : Z) :
  foldM py_add (repeat (JInt 0) n) (JInt acc) = Ok (JInt acc).
Proof.
  induction n as [| n IH]; [reflexivity |].
  cbn [repeat foldM py_add as_num bind]. rewrite Z.add_0_r. exact IH.
Qed.

(** X4. A row without a cell at index 3 counts as a rate of 0: when the
    query returns rows and none of them has more than three cells, the
    rate is 0.0, not the fallback 4.8. *)
Theorem short_rows_give_zero_rate
        (w : world) (start_date end_date : string) (response : json)
        (rows : list json) :
  reports_query w (ctr_query start_date end_date) = Ok response ->
  py_get_default response "rows" (JList []) = Ok (JList rows) ->
  rows <> [] ->
  Forall (fun row => exists l, row = JList l /\ (List.length l <= 3)%nat) rows ->
  fetch_click_through_rate w start_date end_date = JFloat zero.
Proof.
  intros Hq Hrows Hne Hshort.
  unfold fetch_click_through_rate, click_through_rate_body.
  rewrite Hq. cbn [bind]. rewrite Hrows. cbn [bind].
  destruct rows as [| row rows']; [contradiction |].
  cbn [py_truthy py_iter bind].
  rewrite (short_rows_read_zero _ Hshort). cbn [bind].
  unfold mean_or_zero, py_sum. cbn [List.length repeat].
  change (JInt 0 :: repeat (JInt 0) (List.length rows'))
    with (repeat (JInt 0) (S (List.length rows'))).
  rewrite sum_of_zeros. cbn [bind py_truediv as_num].
  rewrite List.repeat_length, int_true_div_zero by lia.
  reflexivity.
Qed.

(** ** Traffic sources, continued *)

Lemma prefix_app_l (a b h : string) :
  String.prefix (a ++ b) h = true -> String.prefix a h = true.
Proof.
  revert h. induction a as [| c a IH]; intros h; destruct h as [| c' h];
    cbn; try reflexivity; try discriminate.
  destruct (ascii_dec c c'); [apply IH | discriminate].
Qed.

Lemma contains_prefix (needle hay : string) :
  String.prefix needle hay = true -> Py_str.contains needle hay = true.
Proof.
  intros H. destruct hay; cbn [Py_str.contains]; rewrite H; reflexivity.
Qed.

Lemma contains_tail (needle : string) (c : ascii) (hay : string) :
  Py_str.contains needle hay = true ->
  Py_str.contains needle (String c hay) = true.
Proof. intros H. cbn [Py_str.contains]. rewrite H. apply orb_true_r. Qed.

Lemma prefix_app_r (a b h : string) :
  String.prefix (a ++ b) h = true -> Py_str.contains b h = true.
Proof.
  revert h. induction a as [| c a IH]; intros h; cbn [append].
  - apply contains_prefix.
  - destruct h as [| c' h]; cbn [String.prefix]; [discriminate |].
    destruct (ascii_dec c c'); [| discriminate].
    intros H. apply contains_tail, IH, H.
Qed.

(** A string that contains [a ++ b] contains [a] and contains [b]. *)
Lemma contains_app (a b hay : string) :
  Py_str.contains (a ++ b) hay = true ->
  Py_str.contains a hay = true /\ Py_str.contains b hay = true.
Proof.
  induction hay as [| c hay IH]; cbn [Py_str.contains]; intros H.
  - rewrite orb_false_r in H. split.
    + rewrite (prefix_app_l _ _ _ H). reflexivity.
    + exact (prefix_app_r _ _ _ H).
  - apply orb_true_iff in H. destruct H as [H | H].
    + split.
      * rewrite (prefix_app_l _ _ _ H). reflexivity.
      * exact (prefix_app_r _ _ _ H).
    + destruct (IH H) as (Ha & Hb). rewrite Ha, Hb, !orb_true_r. split; reflexivity.
Qed.

Lemma bucket_of_keyword (s : string) :
  bucket_of (JStr s) = Ok (bucket_by_keyword (Py_str.upper s)).
Proof.
  unfold bucket_of, bucket_by_keyword. cbn [py_upper bind].
  set (u := Py_str.upper s). f_equal.
  destruct (Py_str.contains "SEARCH" u) eqn:S1; [reflexivity |].
  destruct (Py_str.contains "YT_SEARCH" u) eqn:S2.
  { destruct (contains_app "YT_" "SEARCH" u S2) as (_ & H). congruence. }
  cbn [orb].
  destruct (Py_str.contains "BROWSE" u || Py_str.contains "SUGGESTED" u
            || Py_str.contains "RELATED" u); [reflexivity |].
  destruct (Py_str.contains "EXT" u) eqn:E1; [rewrite orb_true_r; reflexivity |].
  destruct (Py_str.contains "EXTERNAL" u) eqn:E2; [| reflexivity].
  destruct (contains_app "EXT" "ERNAL" u E2) as (H & _). congruence.
Qed.

Lemma bucket_by_keyword_in (u : string) : In (bucket_by_keyword u) BUCKETS.
Proof.
  unfold bucket_by_keyword, BUCKETS.
  destruct (Py_str.contains "SEARCH" u); [cbn; tauto |].
  destruct (_ || _); [cbn; tauto |].
  destruct (Py_str.contains "EXT" u); cbn; tauto.
Qed.

(** X5. The bucket of a source type is decided by the keywords [SEARCH],
    then [BROWSE], [SUGGESTED] or [RELATED], then [EXT], looked for in the
    upper-cased name; the tests for [YT_SEARCH] and [EXTERNAL] never change
    the outcome.  The bucket is always one of the four, and a source type
    that is not a string raises [AttributeError]. *)
Theorem bucket_by_keywords :
  (forall s, bucket_of (JStr s) = Ok (bucket_by_keyword (Py_str.upper s)))
  /\ (forall u, In (bucket_by_keyword u) BUCKETS)
  /\ (forall v, (forall s, v <> JStr s) -> bucket_of v = Raise AttributeError).
Proof.
  split; [exact bucket_of_keyword | split; [exact bucket_by_keyword_in |]].
  intros v Hv. destruct v; try reflexivity. elim (Hv s). reflexivity.
Qed.

Lemma zero_views_total (rows : list json) :
  Forall (fun row => exists t, row = JList [JStr t; JInt 0]) rows ->
  forall acc,
    foldM (fun acc row => x <- py_index row 1 ;; py_add acc x) rows (JInt acc)
    = Ok (JInt acc).
Proof.
  induction 1 as [| row rows (t & ->) _ IH]; intros acc; [reflexivity |].
  cbn [foldM]. rewrite py_index_1. cbn [bind py_add as_num].
  rewrite Z.add_0_r. apply IH.
Qed.

Lemma zero_share_keeps_sources (k : string) :
  In k BUCKETS -> dict_add k (JInt 0) INITIAL_SOURCES = Ok INITIAL_SOURCES.
Proof.
  intros [<- | [<- | [<- | [<- | []]]]]; reflexivity.
Qed.

Lemma zero_views_sources (rows : list json) :
  Forall (fun row => exists t, row = JList [JStr t; JInt 0]) rows ->
  foldM (add_row (JInt 0)) rows INITIAL_SOURCES = Ok INITIAL_SOURCES.
Proof.
  induction 1 as [| row rows (t & ->) _ IH]; [reflexivity |].
  cbn [foldM]. unfold add_row.
  rewrite py_index_0, py_index_1. cbn [bind].
  replace (percentage_of (JInt 0) (JInt 0)) with (Ok (JInt 0)) by reflexivity.
  cbn [bind].
  rewrite bucket_of_keyword. cbn [bind].
  rewrite zero_share_keeps_sources by apply bucket_by_keyword_in.
  cbn [bind]. exact IH.
Qed.

(** X6. When the traffic-source query returns no rows, or only rows with
    zero views, all of the share goes to the first bucket: the result is
    [{search: 100, browse: 0, external: 0, other: 0}], not the default
    distribution. *)
Theorem zero_views_go_to_search
        (w : world) (start_date end_date : string) (response : json)
        (rows : list json) :
  reports_query w (traffic_query start_date end_date) = Ok response ->
  py_get_default response "rows" (JList []) = Ok (JList rows) ->
  Forall (fun row => exists t, row = JList [JStr t; JInt 0]) rows ->
  fetch_traffic_sources w start_date end_date
  = [("search", 100); ("browse", 0); ("external", 0); ("other", 0)].
Proof.
  intros Hq Hrows Hzero.
  unfold fetch_traffic_sources, traffic_sources_body.
  rewrite Hq. cbn [bind]. rewrite Hrows. cbn [bind py_iter].
  unfold sum_over. rewrite (zero_views_total _ Hzero). cbn [bind].
  rewrite (zero_views_sources _ Hzero). reflexivity.
Qed.

(** The running best of [max_key]: what the fold returns stands in the
    list after smaller values only and before values that are no larger. *)
Lemma first_largest (rest : list (string * Z)) :
  forall (pre : list (string * Z)) (best : string * Z) (mid : list (string * Z)),
    Forall (fun kv => snd kv < snd best) pre ->
    Forall (fun kv => snd kv <= snd best) mid ->
    exists pre' post,
      (pre ++ best :: mid ++ rest)%list
      = (pre' ++ fold_left (fun b kv => if snd b <? snd kv then kv else b) rest best
               :: post)%list
      /\ Forall (fun kv => snd kv
                           < snd (fold_left (fun b kv => if snd b <? snd kv then kv else b)
                                            rest best)) pre'
      /\ Forall (fun kv => snd kv
                           <= snd (fold_left (fun b kv => if snd b <? snd kv then kv else b)
                                             rest best)) post.
Proof.
  induction rest as [| x rest IH]; intros pre best mid Hpre Hmid; cbn [fold_left].
  - exists pre, mid. rewrite app_nil_r. auto.
  - destruct (snd best <? snd x) eqn:C.
    + apply Z.ltb_lt in C.
      destruct (IH (pre ++ best :: mid)%list x []) as (pre' & post & E & H1 & H2).
      * apply Forall_app. split.
        -- eapply Forall_impl; [| exact Hpre]. cbn. intros; lia.
        -- constructor; [exact C |].
           eapply Forall_impl; [| exact Hmid]. cbn. intros; lia.
      * constructor.
      * exists pre', post. split; [| auto].
        rewrite <- E. cbn [app]. rewrite <- !app_assoc. reflexivity.
    + apply Z.ltb_ge in C.
      destruct (IH pre best (mid ++ [x])%list Hpre) as (pre' & post & E & H1 & H2).
      * apply Forall_app. split; [exact Hmid | constructor; [exact C | constructor]].
      * exists pre', post. split; [| auto].
        rewrite <- E. rewrite <- !app_assoc. reflexivity.
Qed.

Lemma lookup_in_nodup (k : string) (v : Z) (d : list (string * Z)) :
  NoDup (keys d) -> In (k, v) d -> dict_lookup k d = Some v.
Proof.
  induction d as [| [k0 v0] d IH]; cbn; intros Hnd Hin; [contradiction |].
  inversion Hnd as [| ? ? Hnotin Hnd']; subst.
  destruct Hin as [E | Hin].
  - injection E as -> ->. rewrite String.eqb_refl. reflexivity.
  - destruct (String.eqb k k0) eqn:C.
    + apply String.eqb_eq in C. subst. elim Hnotin.
      apply in_map_iff. exists (k0, v). auto.
    + apply IH; assumption.
Qed.

Lemma fold_add_shift (l : list Z) (a b : Z) :
  fold_left Z.add l (a + b) = fold_left Z.add l a + b.
Proof.
  revert a. induction l as [| x l IH]; intros a; cbn [fold_left]; [reflexivity |].
  replace (a + b + x) with (a + x + b) by lia. apply IH.
Qed.

Lemma total_of_cons (k : string) (v : Z) (d : list (string * Z)) :
  total_of ((k, v) :: d) = v + total_of d.
Proof.
  unfold total_of, dict_values. cbn [map fold_left snd].
  rewrite (fold_add_shift _ 0 v). lia.
Qed.

Lemma dict_set_total (k : string) (v v' : Z) (d : list (string * Z)) :
  dict_lookup k d = Some v ->
  total_of (dict_set k v' d) = total_of d - v + v'.
Proof.
  induction d as [| [k0 v0] d IH]; cbn [dict_lookup dict_set]; [discriminate |].
  destruct (String.eqb k k0) eqn:C; intros H.
  - injection H as <-. rewrite !total_of_cons. lia.
  - rewrite !total_of_cons, IH by assumption. lia.
Qed.

Lemma dict_set_other {A : Type} (k k' : string) (v : A) (d : list (string * A)) :
  k' <> k -> dict_lookup k' (dict_set k v d) = dict_lookup k' d.
Proof.
  intros Hne. induction d as [| [k0 v0] d IH]; cbn [dict_lookup dict_set].
  - destruct (String.eqb k' k) eqn:C; [apply String.eqb_eq in C; contradiction |].
    reflexivity.
  - destruct (String.eqb k k0) eqn:C; cbn [dict_lookup].
    + apply String.eqb_eq in C. subst.
      destruct (String.eqb k' k0) eqn:C'; [apply String.eqb_eq in C'; contradiction |].
      reflexivity.
    + rewrite IH. reflexivity.
Qed.

Lemma dict_set_same {A : Type} (k : string) (v v' : A) (d : list (string * A)) :
  dict_lookup k d = Some v -> dict_lookup k (dict_set k v' d) = Some v'.
Proof.
  induction d as [| [k0 v0] d IH]; cbn [dict_lookup dict_set]; [discriminate |].
  destruct (String.eqb k k0) eqn:C; cbn [dict_lookup]; intros H.
  - rewrite String.eqb_refl. reflexivity.
  - rewrite C. apply IH, H.
Qed.

(** [max(sources, key=sources.get)] on a dict. *)
Lemma max_key_first_largest (d : list (string * Z)) (k : string) :
  NoDup (keys d) ->
  max_key d = Ok k ->
  exists v pre post,
    d = (pre ++ (k, v) :: post)%list
    /\ dict_lookup k d = Some v
    /\ Forall (fun kv => snd kv < v) pre
    /\ Forall (fun kv => snd kv <= v) post.
Proof.
  intros Hnd H. unfold max_key in H.
  destruct d as [| kv rest]; [discriminate |]. inv_ok H.
  destruct (first_largest rest [] kv [] (Forall_nil _) (Forall_nil _))
    as (pre & post & E & H1 & H2).
  cbn [app] in E.
  destruct (fold_left _ rest kv) as [k v] eqn:F. cbn [fst snd] in *.
  exists v, pre, post. repeat split; try assumption.
  apply lookup_in_nodup; [exact Hnd |].
  rewrite E. apply in_elt.
Qed.

Lemma Ok_inj {A : Type} (a b : A) : Ok a = Ok b -> a = b.
Proof. intros H. injection H as H. exact H. Qed.

Lemma adjust_to_100_cases (d : list (string * Z)) :
  adjust_to_100 d
  = if total_of d =? 100 then Ok d
    else k <- max_key d ;;
         match dict_lookup k d with
         | Some v => Ok (dict_set k (v + (100 - total_of d)) d)
         | None => Raise KeyError
         end.
Proof. unfold adjust_to_100. destruct (total_of d =? 100); reflexivity. Qed.

Lemma adjust_to_100_ok (d d' : list (string * Z)) :
  NoDup (keys d) ->
  adjust_to_100 d = Ok d' ->
  keys d' = keys d
  /\ total_of d' = 100
  /\ (total_of d = 100 -> d' = d)
  /\ (total_of d <> 100 ->
      exists k v pre post,
        d = (pre ++ (k, v) :: post)%list
        /\ Forall (fun kv => snd kv < v) pre
        /\ Forall (fun kv => snd kv <= v) post
        /\ dict_lookup k d' = Some (v + (100 - total_of d))
        /\ forall k', k' <> k -> dict_lookup k' d' = dict_lookup k' d).
Proof.
  intros Hnd H. rewrite adjust_to_100_cases in H.
  destruct (total_of d =? 100) eqn:T.
  - apply Z.eqb_eq in T. inv_ok H. repeat split; try assumption; try reflexivity.
    intros Hne. contradiction.
  - apply Z.eqb_neq in T.
    apply bind_ok in H. destruct H as (k & Hk & H).
    destruct (max_key_first_largest d k Hnd Hk) as (v & pre & post & E & L & H1 & H2).
    rewrite L in H. apply Ok_inj in H. subst d'.
    split; [eapply dict_set_keys, L |].
    split; [rewrite (dict_set_total _ _ _ _ L); lia |].
    split; [intros; contradiction |].
    intros _. exists k, v, pre, post.
    split; [exact E |]. split; [exact H1 |]. split; [exact H2 |].
    split; [eapply dict_set_same, L |].
    intros k' Hne. apply dict_set_other, Hne.
Qed.

(** X7. On any dict of rounded shares the adjustment touches one entry at
    most.  If the shares already add up to 100 nothing changes.
    Otherwise the residual goes to the key [max] picks, the first one, in
    insertion order, whose value no other exceeds; every other key keeps
    its rounded value, the keys stay as they are and the new total is
    100. *)
Theorem adjustment_touches_first_largest (d d' : list (string * Z)) :
  NoDup (keys d) ->
  adjust_to_100 d = Ok d' ->
  keys d' = keys d
  /\ total_of d' = 100
  /\ (total_of d = 100 -> d' = d)
  /\ (total_of d <> 100 ->
      exists k v pre post,
        d = (pre ++ (k, v) :: post)%list
        /\ Forall (fun kv => snd kv < v) pre
        /\ Forall (fun kv => snd kv <= v) post
        /\ dict_lookup k d' = Some (v + (100 - total_of d))
        /\ forall k', k' <> k -> dict_lookup k' d' = dict_lookup k' d).
Proof. exact (adjust_to_100_ok d d'). Qed.

Lemma adjustment_touches_first_largest_witness :
  exists d',
    adjust_to_100 [("search", 30); ("browse", 34); ("external", 34); ("other", 1)]
    = Ok d'
    /\ total_of d' = 100
    /\ dict_lookup "browse" d' = Some 35
    /\ dict_lookup "external" d' = Some 34.
Proof.
  eexists. split; [vm_compute; reflexivity |].
  destruct (adjustment_touches_first_largest
              [("search", 30); ("browse", 34); ("external", 34); ("other", 1)]
              [("search", 30); ("browse", 35); ("external", 34); ("other", 1)])
    as (_ & Htotal & _ & _).
  - repeat constructor; cbn; intuition discriminate.
  - vm_compute. reflexivity.
  - split; [exact Htotal | split; reflexivity].
Defined.

(** ** Top video, continued *)

(** X8. A title lookup that answers takes the title from the first item
    only, and when the answer has no [items] entry, or an empty or
    otherwise falsy one, the title is ["Unknown Title"]; the snippet is
    not looked at. *)
Theorem title_from_first_item_or_unknown
        (w : world) (vid : json) (d : list (string * json)) :
  videos_list w "snippet" vid = Ok (JDict d) ->
  (match dict_lookup "items" d with
   | Some found => py_truthy found = false
   | None => True
   end ->
   video_title w vid = Ok (JStr "Unknown Title"))
  /\ (forall snippet ttl others,
         dict_lookup "items" d = Some (JList (JDict snippet :: others)) ->
         dict_lookup "snippet" snippet = Some (JDict ttl) ->
         video_title w vid
         = match dict_lookup "title" ttl with
           | Some t => Ok t
           | None => short <- py_take vid 10 ;; py_add (JStr "Video ") short
           end).
Proof.
  intros Hq. unfold video_title, title_lookup.
  rewrite Hq. cbn [bind py_get]. split.
  - intros Hitems.
    destruct (dict_lookup "items" d) as [found |]; [rewrite Hitems |]; reflexivity.
  - intros snippet ttl others Hitems Hsnippet.
    rewrite Hitems. cbn [py_truthy py_item bind]. rewrite Hitems. cbn [bind].
    rewrite py_index_0. cbn [bind py_item]. rewrite Hsnippet. cbn [bind py_item].
    destruct (dict_lookup "title" ttl); reflexivity.
Qed.

Lemma placeholder_needs_string (vid : json) :
  (forall s, vid <> JStr s) ->
  exists e, (short <- py_take vid 10 ;; py_add (JStr "Video ") short) = Raise e.
Proof.
  intros Hv. destruct vid; try (eexists; reflexivity).
  elim (Hv s). reflexivity.
Qed.

(** X9. The placeholder title can only be built from a string: when the
    top row's video identifier is anything else and the title lookup
    raises, the handler raises in turn and [fetch_top_video] fails. *)
Theorem placeholder_title_needs_string_id
        (w : world) (start_date end_date : string) (response vid nviews minutes : json)
        (rest more : list json) (x : exn) :
  reports_query w (top_video_query start_date end_date) = Ok response ->
  py_get_default response "rows" (JList [])
  = Ok (JList (JList (vid :: nviews :: minutes :: rest) :: more)) ->
  (forall s, vid <> JStr s) ->
  title_lookup w vid = Raise x ->
  exists e, fetch_top_video w start_date end_date = Raise e.
Proof.
  intros Hq Hrows Hvid Hlookup.
  destruct (placeholder_needs_string vid Hvid) as (e & He).
  destruct (cell_or_zero_list (vid :: nviews :: minutes :: rest) 3) as (nlikes & Hlikes).
  exists e. unfold fetch_top_video.
  rewrite Hq. cbn [bind]. rewrite Hrows. cbn [bind py_truthy negb].
  rewrite py_index_0. cbn [bind].
  rewrite py_index_0, py_index_1, py_index_2. cbn [bind].
  change 3 with (Z.of_nat 3). rewrite Hlikes. cbn [bind].
  unfold video_title. rewrite Hlookup, He. reflexivity.
Qed.

(** ** Chart, continued *)

Lemma chart_ok (w : world) (metrics_data : json) (c : chart) :
  calculate_subscriber_growth_chart w metrics_data = Ok c ->
  exists rows,
    py_get_default metrics_data "rows" (JList []) = Ok rows
    /\ ((py_truthy rows = false /\ c = {| labels := []; values := [] |})
        \/ (py_truthy rows = true
            /\ exists n selected items,
                py_len rows = Ok n
                /\ py_stride rows (chart_step n) = Ok selected
                /\ py_iter selected = Ok items
                /\ foldM (chart_point w) items {| labels := []; values := [] |} = Ok c)).
Proof.
  unfold calculate_subscriber_growth_chart. intros H.
  apply bind_ok in H. destruct H as (rows & Hrows & H).
  exists rows. split; [exact Hrows |].
  destruct (py_truthy rows); cbn [negb] in H.
  - right. split; [reflexivity |].
    apply bind_ok in H. destruct H as (n & Hn & H).
    apply bind_ok in H. destruct H as (selected & Hsel & H).
    apply bind_ok in H. destruct H as (items & Hitems & H).
    now exists n, selected, items.
  - left. inv_ok H. split; reflexivity.
Qed.

Lemma chart_aligned (w : world) (metrics_data : json) (c : chart) :
  calculate_subscriber_growth_chart w metrics_data = Ok c ->
  List.length (labels c) = List.length (values c).
Proof.
  intros H. apply chart_ok in H.
  destruct H as (rows & _ & [(_ & ->) | (_ & n & selected & items & _ & _ & _ & H)]).
  - reflexivity.
  - apply chart_points_length in H. cbn [labels values List.length] in H. lia.
Qed.

(** X10. Whatever the metrics table holds, a chart that is returned has
    as many labels as values. *)
Theorem chart_series_aligned (w : world) (metrics_data : json) (c : chart) :
  calculate_subscriber_growth_chart w metrics_data = Ok c ->
  List.length (labels c) = List.length (values c).
Proof. exact (chart_aligned w metrics_data c). Qed.

Lemma chart_series_aligned_witness :
  exists c,
    calculate_subscriber_growth_chart Sample.healthy (Sample.table Sample.metrics_rows)
    = Ok c
    /\ List.length (labels c) = List.length (values c).
Proof.
  eexists. split; [vm_compute; reflexivity |].
  apply (chart_series_aligned Sample.healthy (Sample.table Sample.metrics_rows)).
  vm_compute. reflexivity.
Defined.

Lemma chart_points_bounds (n : nat) :
  ((n < 6)%nat -> chart_points n = n)
  /\ ((6 <= n)%nat -> (6 <= chart_points n <= 11)%nat).
Proof.
  unfold chart_points, chart_step.
  assert (Hk : Z.to_nat (Z.max 1 (Z.of_nat n / 6)) = Nat.max 1 (n / 6)).
  { change 6 with (Z.of_nat 6). rewrite <- Nat2Z.inj_div.
    change 1 with (Z.of_nat 1). rewrite <- Nat2Z.inj_max. apply Nat2Z.id. }
  rewrite Hk. rewrite every_nth_length by lia. rewrite length_seq.
  split; intros Hn.
  - rewrite (Nat.div_small n 6) by lia. cbn [Nat.max].
    destruct n as [| n]; [reflexivity |].
    replace (S n <=? 0)%nat with false by reflexivity.
    rewrite Nat.div_1_r. lia.
  - assert (Hq : (1 <= n / 6)%nat) by (apply Nat.div_le_lower_bound; lia).
    rewrite Nat.max_r by exact Hq.
    replace (n <=? 0)%nat with false by (symmetry; apply Nat.leb_gt; lia).
    pose proof (Nat.div_mod_eq n 6) as Hdm.
    pose proof (Nat.mod_upper_bound n 6 ltac:(lia)) as Hm.
    set (q := (n / 6)%nat) in *.
    assert (5 <= (n - 0 - 1) / q)%nat by (apply Nat.div_le_lower_bound; nia).
    assert ((n - 0 - 1) / q < 11)%nat by (apply Nat.Div0.div_lt_upper_bound; nia).
    lia.
Qed.

(** X11. A chart that is returned for a table of [n] rows has every row
    when [n < 6], and between 6 and 11 points when [n >= 6]. *)
Theorem chart_has_six_to_eleven_points
        (w : world) (metrics_data : json) (rows : list json) (c : chart) :
  py_get_default metrics_data "rows" (JList []) = Ok (JList rows) ->
  calculate_subscriber_growth_chart w metrics_data = Ok c ->
  List.length (labels c) = chart_points (List.length rows)
  /\ ((List.length rows < 6)%nat -> List.length (labels c) = List.length rows)
  /\ ((6 <= List.length rows)%nat -> (6 <= List.length (labels c) <= 11)%nat).
Proof.
  intros Hrows H. apply chart_ok in H.
  destruct H as (rows' & Hrows' & H). rewrite Hrows in Hrows'. inv_ok Hrows'.
  assert (Hlen : List.length (labels c) = chart_points (List.length rows)).
  { destruct H as [(T & ->) | (T & n & selected & items & Hn & Hsel & Hit & H)].
    - destruct rows; [reflexivity | discriminate].
    - cbn [py_len] in Hn. inv_ok Hn.
      unfold py_stride in Hsel.
      destruct (chart_step _ =? 0); [discriminate |]. inv_ok Hsel.
      cbn [py_iter] in Hit. inv_ok Hit.
      apply chart_points_length in H. destruct H as (H & _).
      cbn [labels List.length Nat.add] in H. rewrite H.
      unfold chart_points.
      assert (Hk : (1 <= Z.to_nat (chart_step (Z.of_nat (List.length rows))))%nat)
        by (unfold chart_step; lia).
      rewrite !every_nth_length by exact Hk. rewrite length_seq. reflexivity. }
  rewrite Hlen. split; [reflexivity |]. apply chart_points_bounds.
Qed.

Lemma chart_has_six_to_eleven_points_witness :
  exists c,
    calculate_subscriber_growth_chart Sample.healthy (Sample.table Sample.thirty_rows)
    = Ok c
    /\ (6 <= List.length (labels c) <= 11)%nat.
Proof.
  eexists. split; [vm_compute; reflexivity |].
  apply (chart_has_six_to_eleven_points Sample.healthy
           (Sample.table Sample.thirty_rows) Sample.thirty_rows).
  - reflexivity.
  - vm_compute. reflexivity.
  - vm_compute. lia.
Defined.

(** X12. For a table of well-formed daily rows the chart shows, for each
    selected row in order, the row's date formatted as month and day and
    the row's subscribers gained minus subscribers lost. *)
Theorem chart_shows_net_growth
        (w : world) (metrics_data : json) (rows : list json) :
  py_get_default metrics_data "rows" (JList []) = Ok (JList rows) ->
  Forall (api_day_row w) rows ->
  calculate_subscriber_growth_chart w metrics_data
  = Ok {| labels :=
            map (label_of w)
                (every_nth 0 (Z.to_nat (chart_step (Z.of_nat (List.length rows)))) rows);
          values :=
            map net_growth_of
                (every_nth 0 (Z.to_nat (chart_step (Z.of_nat (List.length rows)))) rows) |}.
Proof.
  intros Hrows Hall.
  unfold calculate_subscriber_growth_chart. rewrite Hrows. cbn [bind].
  destruct rows as [| row rows']; [reflexivity |].
  cbn [py_truthy negb py_len bind]. unfold py_stride.
  replace (chart_step (Z.of_nat (List.length (row :: rows'))) =? 0) with false
    by (symmetry; apply Z.eqb_neq; unfold chart_step; lia).
  cbn [bind py_iter].
  rewrite chart_points_of_api_rows; [reflexivity |].
  rewrite Forall_forall in *. intros x Hx. eapply Hall, every_nth_incl, Hx.
Qed.

Lemma chart_shows_net_growth_witness :
  calculate_subscriber_growth_chart Sample.healthy (Sample.table Sample.metrics_rows)
  = Ok {| labels := ["Mar 01"; "Mar 02"; "Mar 03"];
          values := [JInt 4; JInt 5; JInt (-1)] |}.
Proof.
  rewrite (chart_shows_net_growth Sample.healthy
             (Sample.table Sample.metrics_rows) Sample.metrics_rows).
  - vm_compute. reflexivity.
  - reflexivity.
  - repeat (constructor;
            [do 7 eexists; split; [reflexivity | vm_compute; reflexivity] |]).
    constructor.
Defined.

(** ** Channel totals *)

Lemma sum_over_reads_every_row (f : json -> result json) (rows : list json) :
  forall acc total,
    foldM (fun acc row => x <- f row ;; py_add acc x) rows acc = Ok total ->
    Forall (fun row => exists x, f row = Ok x) rows.
Proof.
  induction rows as [| row rows IH]; intros acc total H; [constructor |].
  cbn [foldM] in H. apply bind_ok in H. destruct H as (acc' & Hstep & H).
  apply bind_ok in Hstep. destruct Hstep as (x & Hx & _).
  constructor; [now exists x | eapply IH, H].
Qed.

Lemma short_row_has_no_cell (l : list json) (i : nat) :
  (List.length l <= i)%nat -> py_index (JList l) (Z.of_nat i) = Raise IndexError.
Proof.
  intros Hl. unfold py_index, norm_index.
  replace (Z.of_nat i <? 0) with false by (symmetry; apply Z.ltb_ge; lia).
  replace (Z.of_nat i <? Z.of_nat (List.length l)) with false
    by (symmetry; apply Z.ltb_ge; lia).
  rewrite andb_false_r. reflexivity.
Qed.

(** X13. The totals read the cells at index 2, 4 and 5 of every metrics
    row without a length check: when some row of the table is a list of
    fewer than six cells, the run does not complete (the chart's own
    checks for short rows never come into play). *)
Theorem short_metrics_row_aborts
        (w : world) (metrics_data : json) (rows : list json) :
  fetch_channel_metrics w (start_of w) (end_of w) = Ok metrics_data ->
  py_get_default metrics_data "rows" (JList []) = Ok (JList rows) ->
  Exists (fun row => exists l, row = JList l /\ (List.length l < 6)%nat) rows ->
  forall r, main w <> Completed r.
Proof.
  intros Hfetch Hrows Hshort r Hmain.
  apply main_completed in Hmain.
  destruct Hmain as (_ & m & t & Hm & _ & Hasm & _).
  rewrite Hfetch in Hm. inv_ok Hm.
  apply assemble_ok in Hasm. destruct Hasm as (tot & rate & Htot & _ & _).
  apply channel_totals_ok in Htot.
  destruct Htot as (rows' & items & _ & _ & Hr & Hit & _ & _ & _ & _ & _ & Hlost & _).
  rewrite Hrows in Hr. inv_ok Hr. cbn [py_iter] in Hit. inv_ok Hit.
  apply sum_over_reads_every_row in Hlost.
  apply Exists_exists in Hshort. destruct Hshort as (row & Hin & l & -> & Hl).
  rewrite Forall_forall in Hlost. destruct (Hlost _ Hin) as (x & Hx).
  change 5 with (Z.of_nat 5) in Hx.
  rewrite short_row_has_no_cell in Hx by lia. discriminate.
Qed.

Lemma api_row_cell (w : world) (row : json) (i : nat) :
  api_day_row w row -> (1 <= i <= 5)%nat ->
  py_index row (Z.of_nat i) = Ok (JInt (cell_int i row)).
Proof.
  intros (d & v & m & dur & g & l & dt & -> & _) Hi.
  destruct i as [| [| [| [| [| [| i]]]]]]; try lia; reflexivity.
Qed.

Lemma sum_over_int_column (w : world) (i : nat) (rows : list json) :
  (1 <= i <= 5)%nat ->
  Forall (api_day_row w) rows ->
  forall acc,
    foldM (fun acc row => x <- py_index row (Z.of_nat i) ;; py_add acc x)
          rows (JInt acc)
    = Ok (JInt (fold_left Z.add (map (cell_int i) rows) acc)).
Proof.
  intros Hi. induction 1 as [| row rows Hrow _ IH]; intros acc; [reflexivity |].
  cbn [foldM map fold_left]. rewrite (api_row_cell w row i Hrow Hi).
  cbn [bind py_add as_num]. apply IH.
Qed.

(** X14. For a metrics table of well-formed daily rows, the report of a
    completed run carries the plain integer sums of the gained and lost
    columns, and the sum of the minutes column divided by 60 and rounded
    to one decimal. *)
Theorem report_totals_are_column_sums
        (w : world) (r : report) (metrics_data : json) (rows : list json) :
  main w = Completed r ->
  fetch_channel_metrics w (start_of w) (end_of w) = Ok metrics_data ->
  py_get_default metrics_data "rows" (JList []) = Ok (JList rows) ->
  Forall (api_day_row w) rows ->
  subscribers_gained r = JInt (column_total 4 rows)
  /\ subscribers_lost r = JInt (column_total 5 rows)
  /\ exists hours,
      Py_float.int_true_div (column_total 2 rows) 60 = Ok hours
      /\ total_watch_hours r = JFloat (Py_float.round1 hours).
Proof.
  intros Hmain Hfetch Hrows Hall.
  apply main_completed in Hmain.
  destruct Hmain as (_ & m & t & Hm & _ & Hasm & _).
  rewrite Hfetch in Hm. inv_ok Hm.
  apply assemble_ok in Hasm. destruct Hasm as (tot & rate & Htot & _ & ->).
  apply channel_totals_ok in Htot.
  destruct Htot as (rows' & items & minutes & duration
                    & Hr & Hit & Hmin & Hhours & _ & _ & Hgained & Hlost & _).
  rewrite Hrows in Hr. inv_ok Hr. cbn [py_iter] in Hit. inv_ok Hit.
  unfold sum_over in Hmin, Hgained, Hlost.
  change 2 with (Z.of_nat 2) in Hmin.
  change 4 with (Z.of_nat 4) in Hgained.
  change 5 with (Z.of_nat 5) in Hlost.
  rewrite (sum_over_int_column w 2) in Hmin by (lia || assumption).
  rewrite (sum_over_int_column w 4) in Hgained by (lia || assumption).
  rewrite (sum_over_int_column w 5) in Hlost by (lia || assumption).
  apply Ok_inj in Hmin. apply Ok_inj in Hgained. apply Ok_inj in Hlost.
  subst minutes. cbn [subscribers_gained subscribers_lost total_watch_hours report_of].
  rewrite <- Hgained, <- Hlost. repeat split.
  exists (t_watch_hours tot). split; [exact Hhours | reflexivity].
Qed.

Lemma report_totals_are_column_sums_witness :
  exists r,
    main Sample.healthy = Completed r
    /\ subscribers_gained r = JInt 15
    /\ subscribers_lost r = JInt 7
    /\ total_watch_hours r = JFloat 30.
Proof.
  eexists. split; [vm_compute; reflexivity |].
  edestruct (report_totals_are_column_sums Sample.healthy)
    with (metrics_data := Sample.table Sample.metrics_rows)
         (rows := Sample.metrics_rows)
    as (Hg & Hl & hours & Hh & Hw).
  - vm_compute. reflexivity.
  - reflexivity.
  - reflexivity.
  - repeat (constructor;
            [do 7 eexists; split; [reflexivity | vm_compute; reflexivity] |]).
    constructor.
  - split; [exact Hg | split; [exact Hl |]].
    rewrite Hw. vm_compute in Hh. apply Ok_inj in Hh. rewrite <- Hh.
    vm_compute. reflexivity.
Defined.

(** ** Recent launches, continued *)

Lemma add_launch_grows (w : world) (acc acc' : list launch) (item : json) :
  add_launch w acc item = Ok acc' ->
  acc' = acc \/ exists l, acc' = (acc ++ [l])%list.
Proof.
  unfold add_launch. intros H.
  do 5 (apply bind_ok in H; destruct H as (? & _ & H)).
  match type of H with
  | (if ?c then _ else _) = _ => destruct c
  end.
  - do 9 (apply bind_ok in H; destruct H as (? & _ & H)).
    apply Ok_inj in H. right. eexists. symmetry. exact H.
  - apply Ok_inj in H. left. symmetry. exact H.
Qed.

Lemma launches_bounded (w : world) (items : list json) :
  forall acc acc',
    foldM (add_launch w) items acc = Ok acc' ->
    (List.length acc' <= List.length acc + List.length items)%nat.
Proof.
  induction items as [| item items IH]; intros acc acc' H; cbn [foldM] in H.
  - inv_ok H. lia.
  - apply bind_ok in H. destruct H as (acc1 & Hstep & H).
    apply IH in H. cbn [List.length].
    destruct (add_launch_grows _ _ _ _ Hstep) as [-> | (l & ->)].
    + lia.
    + rewrite length_app in H. cbn [List.length] in H. lia.
Qed.

Lemma recent_videos_body_ok (w : world) (start_date end_date : string)
      (l : list launch) :
  recent_videos_body w start_date end_date = Ok l ->
  exists start_datetime search_response found items collected,
    strptime w start_date "%Y-%m-%d" = Ok start_datetime
    /\ search_list w (recent_search (strftime w start_datetime "%Y-%m-%dT00:00:00Z"))
       = Ok search_response
    /\ py_get_default search_response "items" (JList []) = Ok found
    /\ py_iter found = Ok items
    /\ foldM (add_launch w) items [] = Ok collected
    /\ l = sort_by full_date collected.
Proof.
  unfold recent_videos_body. intros H.
  apply bind_ok in H. destruct H as (start_datetime & H1 & H).
  apply bind_ok in H. destruct H as (search_response & H2 & H).
  apply bind_ok in H. destruct H as (found & H3 & H).
  apply bind_ok in H. destruct H as (items & H4 & H).
  apply bind_ok in H. destruct H as (collected & H5 & H).
  apply Ok_inj in H.
  exists start_datetime, search_response, found, items, collected. auto 10.
Qed.

(** X15. The list of launches never has more entries than the search
    returned items. *)
Theorem launches_at_most_search_items
        (w : world) (start_date end_date : string) (response : json)
        (items : list json) :
  (forall q, search_list w q = Ok response) ->
  py_get_default response "items" (JList []) = Ok (JList items) ->
  (List.length (fetch_recent_videos w start_date end_date) <= List.length items)%nat.
Proof.
  intros Hsearch Hitems. unfold fetch_recent_videos, try_except.
  destruct (recent_videos_body w start_date end_date) as [l | x] eqn:B;
    [| cbn; lia].
  apply recent_videos_body_ok in B.
  destruct B as (dt & resp & found & items' & collected & _ & H2 & H3 & H4 & H5 & ->).
  rewrite Hsearch in H2. inv_ok H2. rewrite Hitems in H3. inv_ok H3.
  cbn [py_iter] in H4. inv_ok H4.
  rewrite <- (Permutation_length (sort_by_perm full_date collected)).
  apply launches_bounded in H5. cbn [List.length] in H5. lia.
Qed.

Lemma launches_at_most_search_items_witness :
  (List.length (fetch_recent_videos Sample.healthy "2024-03-01" "2024-03-31") <= 3)%nat.
Proof.
  apply (launches_at_most_search_items Sample.healthy "2024-03-01" "2024-03-31"
           (JDict [("items", JList Sample.search_items)]) Sample.search_items).
  - intros q. reflexivity.
  - reflexivity.
Defined.

Lemma leb_refl (s : string) : String.leb s s = true.
Proof.
  unfold String.leb. pose proof (String.compare_antisym s s) as H.
  destruct (String.compare s s); (reflexivity || discriminate H).
Qed.

Lemma insert_by_filter {A : Type} (key : A -> string) (k : string) (x : A)
      (l : list A) :
  filter (fun y => String.eqb (key y) k) (insert_by key x l)
  = filter (fun y => String.eqb (key y) k) (x :: l).
Proof.
  induction l as [| y l IH]; [reflexivity |].
  cbn [insert_by]. destruct (String.leb (key x) (key y)) eqn:C; [reflexivity |].
  cbn [filter] in *. rewrite IH.
  destruct (String.eqb (key x) k) eqn:Ex; [| reflexivity].
  destruct (String.eqb (key y) k) eqn:Ey; [| reflexivity].
  apply String.eqb_eq in Ex, Ey. rewrite Ex, <- Ey, leb_refl in C. discriminate.
Qed.

Lemma sort_by_stable {A : Type} (key : A -> string) (k : string) (l : list A) :
  filter (fun y => String.eqb (key y) k) (sort_by key l)
  = filter (fun y => String.eqb (key y) k) l.
Proof.
  induction l as [| x l IH]; [reflexivity |].
  cbn [sort_by fold_right]. rewrite insert_by_filter.
  cbn [filter]. fold (sort_by key l). rewrite IH. reflexivity.
Qed.

Lemma add_launch_picks (w : world) (acc acc' : list launch) (item : json) :
  add_launch w acc item = Ok acc' ->
  acc' = acc
  \/ exists l, acc' = (acc ++ [l])%list /\ item_video_id item = Ok (video_id l).
Proof.
  unfold add_launch, item_video_id. intros H.
  apply bind_ok in H. destruct H as (id & Hid & H).
  apply bind_ok in H. destruct H as (vid & Hvid & H).
  do 3 (apply bind_ok in H; destruct H as (? & _ & H)).
  match type of H with
  | (if ?c then _ else _) = _ => destruct c
  end.
  - do 9 (apply bind_ok in H; destruct H as (? & _ & H)).
    apply Ok_inj in H. right. eexists. split; [symmetry; exact H |].
    rewrite Hid. cbn [bind video_id]. exact Hvid.
  - apply Ok_inj in H. left. symmetry. exact H.
Qed.

Lemma launches_picked_in_order (w : world) (items : list json) :
  forall acc acc',
    foldM (add_launch w) items acc = Ok acc' ->
    exists new, acc' = (acc ++ new)%list /\ picked_from items new.
Proof.
  induction items as [| item items IH]; intros acc acc' H; cbn [foldM] in H.
  - apply Ok_inj in H. exists []. rewrite app_nil_r. split; [auto | constructor].
  - apply bind_ok in H. destruct H as (acc1 & Hstep & H).
    destruct (IH _ _ H) as (new & -> & Hnew).
    destruct (add_launch_picks _ _ _ _ Hstep) as [-> | (l & -> & Hl)].
    + exists new. split; [reflexivity | constructor; exact Hnew].
    + exists (l :: new). rewrite <- app_assoc. split; [reflexivity |].
      constructor; assumption.
Qed.

(** X16. Sorting the launches is stable.  When the search answers with a
    list of items, the launches are collected from those items in the
    order of the search results, one per item at most, and the launches of
    one day come out of [fetch_recent_videos] in that same order. *)
Theorem same_day_launches_keep_order
        (w : world) (start_date end_date : string) (response : json)
        (items : list json) (l : list launch) :
  (forall q, search_list w q = Ok response) ->
  py_get_default response "items" (JList []) = Ok (JList items) ->
  recent_videos_body w start_date end_date = Ok l ->
  fetch_recent_videos w start_date end_date = l
  /\ exists collected,
      foldM (add_launch w) items [] = Ok collected
      /\ picked_from items collected
      /\ forall day,
          filter (fun x => String.eqb (full_date x) day) l
          = filter (fun x => String.eqb (full_date x) day) collected.
Proof.
  intros Hsearch Hitems B. unfold fetch_recent_videos. rewrite B.
  split; [reflexivity |].
  apply recent_videos_body_ok in B.
  destruct B as (dt & resp & found & items' & collected & _ & H2 & H3 & H4 & H5 & ->).
  rewrite Hsearch in H2. apply Ok_inj in H2. subst resp.
  rewrite Hitems in H3. apply Ok_inj in H3. subst found.
  cbn [py_iter] in H4. apply Ok_inj in H4. subst items'.
  exists collected. split; [exact H5 |]. split.
  - destruct (launches_picked_in_order w items [] collected H5) as (new & E & Hnew).
    cbn [app] in E. subst new. exact Hnew.
  - intros day. apply sort_by_stable.
Qed.

Lemma foldM_app {A B : Type} (f : A -> B -> result A) (l1 l2 : list B) (a : A) :
  foldM f (l1 ++ l2) a = (a' <- foldM f l1 a ;; foldM f l2 a').
Proof.
  revert a. induction l1 as [| x l1 IH]; intros a; cbn [foldM app bind]; [reflexivity |].
  destruct (f a x) as [a1 | e]; cbn [bind]; [apply IH | reflexivity].
Qed.

(** X17. The launches stand or fall together: when the search succeeds
    and one of its items cannot be processed (a missing key, a failed
    statistics lookup, a date or a count that does not parse), the result
    is the empty list, also when launches had been collected before that
    item. *)
Theorem one_bad_item_empties_the_list
        (w : world) (start_date end_date : string) (response : json)
        (before after : list json) (item : json) (collected : list launch)
        (x : exn) :
  (forall q, search_list w q = Ok response) ->
  py_get_default response "items" (JList []) = Ok (JList (before ++ item :: after)) ->
  foldM (add_launch w) before [] = Ok collected ->
  add_launch w collected item = Raise x ->
  fetch_recent_videos w start_date end_date = [].
Proof.
  intros Hsearch Hitems Hbefore Hitem.
  unfold fetch_recent_videos, try_except.
  destruct (recent_videos_body w start_date end_date) as [l | e] eqn:B; [| reflexivity].
  apply recent_videos_body_ok in B.
  destruct B as (dt & resp & found & items & done & _ & H2 & H3 & H4 & H5 & _).
  rewrite Hsearch in H2. inv_ok H2. rewrite Hitems in H3. inv_ok H3.
  cbn [py_iter] in H4. inv_ok H4.
  rewrite foldM_app, Hbefore in H5. cbn [bind foldM] in H5.
  rewrite Hitem in H5. discriminate.
Qed.

(** ** Reports *)

Lemma main_written (w : world) (r : report) :
  main w = Completed r \/ (exists e, main w = Aborted (Some r) e) ->
  exists metrics_data top_video,
    fetch_channel_metrics w (start_of w) (end_of w) = Ok metrics_data
    /\ fetch_top_video w (start_of w) (end_of w) = Ok top_video
    /\ assemble w metrics_data
         (fetch_click_through_rate w (start_of w) (end_of w))
         (fetch_traffic_sources w (start_of w) (end_of w))
         top_video
         (fetch_recent_videos w (start_of w) (end_of w)) = Ok r.
Proof.
  unfold main, start_of, end_of, get_date_range. cbn [fst snd].
  destruct (authenticate w); try (intros [H | (e' & H)]; discriminate).
  destruct (fetch_channel_metrics w _ _) as [m | x];
    try (intros [H | (e' & H)]; discriminate).
  destruct (fetch_top_video w _ _) as [t | x];
    try (intros [H | (e' & H)]; discriminate).
  destruct (assemble w m _ _ t _) as [r' | x] eqn:A;
    try (intros [H | (e' & H)]; discriminate).
  intros H. exists m, t. split; [reflexivity | split; [reflexivity |]].
  destruct (print_summary r') as [[] | x]; destruct H as [H | (e' & H)];
    try discriminate; injection H as <-; first [reflexivity | exact A].
Qed.

Lemma main_aborts_after_writing (w : world) (metrics_data : json)
      (top_video : video_summary) (r : report) (x : exn) :
  authenticate w = Authenticated ->
  fetch_channel_metrics w (start_of w) (end_of w) = Ok metrics_data ->
  fetch_top_video w (start_of w) (end_of w) = Ok top_video ->
  assemble w metrics_data
    (fetch_click_through_rate w (start_of w) (end_of w))
    (fetch_traffic_sources w (start_of w) (end_of w))
    top_video
    (fetch_recent_videos w (start_of w) (end_of w)) = Ok r ->
  print_summary r = Raise x ->
  main w = Aborted (Some r) x.
Proof.
  unfold main, start_of, end_of, get_date_range. cbn [fst snd].
  intros -> -> -> -> ->. reflexivity.
Qed.

Lemma traffic_sources_keys_total (w : world) (start_date end_date : string) :
  keys (fetch_traffic_sources w start_date end_date) = BUCKETS
  /\ total_of (fetch_traffic_sources w start_date end_date) = 100.
Proof.
  unfold fetch_traffic_sources, try_except.
  destruct (traffic_sources_body w start_date end_date) as [r | x] eqn:B;
    [| split; reflexivity].
  unfold traffic_sources_body in B.
  apply bind_ok in B. destruct B as (response & _ & B).
  apply bind_ok in B. destruct B as (rows & _ & B).
  apply bind_ok in B. destruct B as (items & _ & B).
  apply bind_ok in B. destruct B as (total_views & _ & B).
  apply bind_ok in B. destruct B as (sources & Hsources & B).
  apply bind_ok in B. destruct B as (rounded & Hrounded & B).
  assert (K : keys rounded = BUCKETS).
  { rewrite (round_sources_keys _ _ Hrounded).
    apply (foldM_invariant (fun d => keys d = BUCKETS)) in Hsources.
    - exact Hsources.
    - intros d row d' Hd Hrow. rewrite <- Hd. eapply add_row_keys, Hrow.
    - reflexivity. }
  apply adjust_to_100_ok in B.
  - destruct B as (Hk & Ht & _). rewrite Hk, K. split; [reflexivity | exact Ht].
  - rewrite K. repeat constructor; cbn; intuition discriminate.
Qed.

Lemma recent_videos_in_order (w : world) (start_date end_date : string) :
  Sorted by_full_date (fetch_recent_videos w start_date end_date).
Proof.
  unfold fetch_recent_videos, try_except.
  destruct (recent_videos_body w start_date end_date) as [l | x] eqn:B;
    [| constructor].
  apply recent_videos_body_ok in B.
  destruct B as (dt & resp & found & items & collected & _ & _ & _ & _ & _ & ->).
  apply sort_by_sorted.
Qed.

(** X18. Every report the run writes, whether or not the run then
    completes, is well formed: [duration_change] and [ctr_change] are
    null, [total_watch_hours] and [click_through_rate] are floats, the
    traffic sources are the four buckets adding up to 100, the chart has
    as many labels as values, and the launches are in [full_date]
    order. *)
Theorem written_report_is_well_formed (w : world) (r : report) :
  main w = Completed r \/ (exists e, main w = Aborted (Some r) e) ->
  duration_change r = JNone
  /\ ctr_change r = JNone
  /\ (exists f, total_watch_hours r = JFloat f)
  /\ (exists f, click_through_rate r = JFloat f)
  /\ keys (traffic_sources r) = BUCKETS
  /\ total_of (traffic_sources r) = 100
  /\ List.length (labels (subscriber_growth_chart r))
     = List.length (values (subscriber_growth_chart r))
  /\ Sorted by_full_date (video_launches r).
Proof.
  intros H. apply main_written in H. destruct H as (m & t & _ & _ & Hasm).
  apply assemble_ok in Hasm. destruct Hasm as (tot & rate & Htot & Hrate & ->).
  cbn [duration_change ctr_change total_watch_hours click_through_rate
       traffic_sources subscriber_growth_chart video_launches report_of].
  destruct (ctr_float w (start_of w) (end_of w)) as (f & Hf).
  rewrite Hf in Hrate. cbn [py_round1 as_num] in Hrate. apply Ok_inj in Hrate.
  apply channel_totals_ok in Htot.
  destruct Htot as (_ & _ & _ & _ & _ & _ & _ & _ & _ & _ & _ & _ & Hchart).
  destruct (traffic_sources_keys_total w (start_of w) (end_of w)) as (Hk & Ht).
  split; [reflexivity |]. split; [reflexivity |].
  split; [eexists; reflexivity |].
  split; [eexists; symmetry; exact Hrate |].
  split; [exact Hk |]. split; [exact Ht |].
  split; [exact (chart_aligned _ _ _ Hchart) | apply recent_videos_in_order].
Qed.

(** X19. The report is written before the summary is printed: when every
    derivation succeeds but the top video's title cannot be sliced (it is
    null or a number, say), the run ends with that exception after the
    report has been written in full. *)
Theorem report_written_before_summary_fails
        (w : world) (metrics_data : json) (top_video : video_summary)
        (t : totals) (net : json) (x : exn) :
  authenticate w = Authenticated ->
  fetch_channel_metrics w (start_of w) (end_of w) = Ok metrics_data ->
  fetch_top_video w (start_of w) (end_of w) = Ok top_video ->
  channel_totals w metrics_data = Ok t ->
  py_sub (t_gained t) (t_lost t) = Ok net ->
  py_take (vs_title top_video) 50 = Raise x ->
  exists r,
    main w = Aborted (Some r) x
    /\ best_video r = top_video
    /\ subscribers_gained r = t_gained t
    /\ subscribers_lost r = t_lost t.
Proof.
  intros Hauth Hm Htop Htot Hnet Htitle.
  destruct (ctr_rounds w (start_of w) (end_of w)) as (rate & Hrate).
  exists (report_of w t rate
            (fetch_traffic_sources w (start_of w) (end_of w)) top_video
            (fetch_recent_videos w (start_of w) (end_of w))).
  split; [| repeat split].
  eapply main_aborts_after_writing; try eassumption.
  - rewrite assemble_totals, Htot. cbn [bind]. rewrite Hrate. reflexivity.
  - unfold print_summary, report_of.
    cbn [subscribers_gained subscribers_lost best_video].
    rewrite Hnet. cbn [bind]. rewrite Htitle. reflexivity.
Qed.

(** ** Further worked instances *)

Lemma short_rows_give_zero_rate_witness :
  fetch_click_through_rate Cases.short_ctr "2024-03-01" "2024-03-31" = JFloat zero.
Proof.
  apply (short_rows_give_zero_rate Cases.short_ctr "2024-03-01" "2024-03-31"
           (Sample.table Cases.short_ctr_rows) Cases.short_ctr_rows).
  - reflexivity.
  - reflexivity.
  - discriminate.
  - repeat (constructor; [eexists; split; [reflexivity | cbn; lia] |]).
    constructor.
Defined.

Lemma zero_views_go_to_search_witness :
  fetch_traffic_sources Cases.zero_traffic "2024-03-01" "2024-03-31"
  = [("search", 100); ("browse", 0); ("external", 0); ("other", 0)].
Proof.
  apply (zero_views_go_to_search Cases.zero_traffic "2024-03-01" "2024-03-31"
           (Sample.table Cases.zero_traffic_rows) Cases.zero_traffic_rows).
  - reflexivity.
  - reflexivity.
  - repeat (constructor; [eexists; reflexivity |]). constructor.
Defined.

Lemma title_from_first_item_or_unknown_witness :
  video_title Cases.no_title_items (JStr "dQw4w9WgXcQ") = Ok (JStr "Unknown Title")
  /\ video_title Sample.healthy (JStr "dQw4w9WgXcQ") = Ok (JStr "Best of March").
Proof.
  split.
  - apply (proj1 (title_from_first_item_or_unknown Cases.no_title_items
                    (JStr "dQw4w9WgXcQ") [] eq_refl)).
    exact I.
  - eapply eq_trans.
    + eapply (proj2 (title_from_first_item_or_unknown Sample.healthy
                       (JStr "dQw4w9WgXcQ") _ eq_refl)); reflexivity.
    + reflexivity.
Defined.

Lemma bucket_by_keywords_witness :
  bucket_of (JStr "yt_search") = Ok "search"
  /\ bucket_of (JStr "Ext_Url") = Ok "external"
  /\ bucket_of (JInt 3) = Raise AttributeError.
Proof.
  destruct bucket_by_keywords as (Hs & _ & Hv).
  split; [rewrite Hs; reflexivity | split; [rewrite Hs; reflexivity |]].
  apply Hv. discriminate.
Defined.

Lemma placeholder_title_needs_string_id_witness :
  fetch_top_video Cases.numeric_id "2024-03-01" "2024-03-31" = Raise TypeError.
Proof.
  destruct (placeholder_title_needs_string_id Cases.numeric_id
              "2024-03-01" "2024-03-31"
              (Sample.table [JList [JInt 7; JInt 5000; JInt 1234]])
              (JInt 7) (JInt 5000) (JInt 1234) [] [] HttpError)
    as (e & He).
  - reflexivity.
  - reflexivity.
  - discriminate.
  - reflexivity.
  - vm_compute. reflexivity.
Defined.

Lemma short_metrics_row_aborts_witness :
  main Cases.short_row = Aborted None IndexError
  /\ forall r, main Cases.short_row <> Completed r.
Proof.
  split; [vm_compute; reflexivity |].
  apply (short_metrics_row_aborts Cases.short_row
           (Sample.table Cases.short_row_table) Cases.short_row_table).
  - vm_compute. reflexivity.
  - reflexivity.
  - apply Exists_cons_tl, Exists_cons_hd. eexists. split; [reflexivity | cbn; lia].
Defined.

Lemma same_day_launches_keep_order_witness :
  map video_id (fetch_recent_videos Cases.same_day "2024-03-01" "2024-03-31")
  = [JStr "vidA"; JStr "vidB"; JStr "vidC"]
  /\ exists l collected,
      recent_videos_body Cases.same_day "2024-03-01" "2024-03-31" = Ok l
      /\ picked_from Cases.same_day_items collected
      /\ map video_id collected = [JStr "vidC"; JStr "vidA"; JStr "vidB"]
      /\ filter (fun x => String.eqb (full_date x) "2024-03-11") l
         = filter (fun x => String.eqb (full_date x) "2024-03-11") collected.
Proof.
  split; [vm_compute; reflexivity |].
  eexists.
  edestruct (same_day_launches_keep_order Cases.same_day "2024-03-01" "2024-03-31"
               (JDict [("items", JList Cases.same_day_items)]) Cases.same_day_items)
    as (_ & collected & Hc & Hpicked & Hstable).
  - intros q. reflexivity.
  - reflexivity.
  - vm_compute. reflexivity.
  - exists collected. split; [vm_compute; reflexivity |].
    split; [exact Hpicked |]. split; [| apply Hstable].
    vm_compute in Hc. apply Ok_inj in Hc. rewrite <- Hc. reflexivity.
Defined.

Lemma one_bad_item_empties_the_list_witness :
  fetch_recent_videos Cases.bad_item "2024-03-01" "2024-03-31" = []
  /\ exists collected,
      foldM (add_launch Cases.bad_item)
            [Cases.found_item "vidA" "First" "2024-03-02T09:30:00Z"] []
      = Ok collected
      /\ List.length collected = 1%nat.
Proof.
  split.
  - eapply (one_bad_item_empties_the_list Cases.bad_item "2024-03-01" "2024-03-31"
              (JDict [("items", JList Cases.bad_items)])
              [Cases.found_item "vidA" "First" "2024-03-02T09:30:00Z"] []).
    + intros q. reflexivity.
    + reflexivity.
    + vm_compute. reflexivity.
    + vm_compute. reflexivity.
  - eexists. split; [vm_compute; reflexivity | reflexivity].
Defined.

Lemma written_report_is_well_formed_witness :
  exists r,
    main Sample.healthy = Completed r
    /\ total_of (traffic_sources r) = 100
    /\ Sorted by_full_date (video_launches r).
Proof.
  eexists. split; [vm_compute; reflexivity |].
  edestruct (written_report_is_well_formed Sample.healthy)
    as (_ & _ & _ & _ & _ & Ht & _ & Hs).
  - left. vm_compute. reflexivity.
  - split; [exact Ht | exact Hs].
Defined.

Lemma report_written_before_summary_fails_witness :
  exists r,
    main Cases.null_title = Aborted (Some r) TypeError
    /\ vs_title (best_video r) = JNone.
Proof.
  edestruct (report_written_before_summary_fails Cases.null_title)
    as (r & Hmain & Hbest & _).
  - reflexivity.
  - vm_compute. reflexivity.
  - vm_compute. reflexivity.
  - vm_compute. reflexivity.
  - vm_compute. reflexivity.
  - vm_compute. reflexivity.
  - exists r. split; [exact Hmain | rewrite Hbest; reflexivity].
Defined.
